(** * qbit_manage: the run orchestrator and its scheduling loop

    A shallow embedding of [qbit_manage.py]: the schedule validation done at
    import time, [start_loop], [start] with its nested [finished_run],
    [calc_next_run], [schedule_from_cron], [schedule_every_x_minutes] and the
    [__main__] block.

    Conventions of the embedding.
    - A [datetime] is an integer count of microseconds (naive local time, as
      [datetime.now()] gives it); a [timedelta] is a difference of two of
      them, and the clock is taken to be monotone.  [Section Program] leaves
      out the range limits of the two types: it is the script as long as no
      time it computes leaves the years 1 to 9999.  [Module Ranged] has
      [schedule_every_x_minutes] with the limits and their [OverflowError].
    - Python code runs in no time; time passes only inside the calls to the
      collaborators (configuration loading, pipeline stages, the web hooks)
      and inside [time.sleep].
    - The collaborators are not part of this file of the repository: what
      they answer is given by a [World].  A pipeline stage is taken to
      return (an exception escaping a stage is outside the model).
    - The process is a state-and-halt monad over [Process]; [sys.exit] and an
      exception nobody catches halt it.
    - [Section Program] is the script as long as no [KeyboardInterrupt] is
      raised in it.  [Module Interruptible] has the functions in which time
      passes once more, for an interrupt raised at a given moment, and the
      [__main__] block with its [except KeyboardInterrupt]; without an
      interrupt the two agree. *)

From Stdlib Require Import ZArith NArith List String Ascii Bool Lia.
From Stdlib Require Import DecimalString.
Import ListNotations.

Local Open Scope string_scope.
Local Open Scope Z_scope.

(** ** Fragments of the Python runtime *)

Module Py.

(** A Python value that is an [int] or a [str]: the two types the global
    [sch] takes. *)
Inductive value : Type :=
| Int (n : Z)
| Str (s : string).

(** [str(n)] for an [int]. *)
Definition str_of_int (n : Z) : string :=
  NilZero.string_of_int (Z.to_int n).

(** [str(v)]. *)
Definition str (v : value) : string :=
  match v with
  | Int n => str_of_int n
  | Str s => s
  end.

(** The ASCII characters [int()] strips: 9 to 13 (tab, line feed, vertical
    tab, form feed, carriage return) and 32 (space). *)
Definition is_space (c : ascii) : bool :=
  let n := nat_of_ascii c in
  (((9 <=? n) && (n <=? 13)) || (n =? 32))%nat.

Definition digit_of (c : ascii) : option Z :=
  let n := nat_of_ascii c in
  if ((48 <=? n) && (n <=? 57))%nat then Some (Z.of_nat n - 48) else None.

Fixpoint lstrip (s : list ascii) : list ascii :=
  match s with
  | c :: rest => if is_space c then lstrip rest else s
  | [] => []
  end.

Definition strip (s : list ascii) : list ascii :=
  rev (lstrip (rev (lstrip s))).

(** The digits after the first one: a digit, or one underscore followed by
    a digit. *)
Fixpoint int_digits (acc : Z) (s : list ascii) {struct s} : option Z :=
  match s with
  | [] => Some acc
  | c :: rest =>
      if Ascii.eqb c "_"%char then
        match rest with
        | d :: rest' =>
            match digit_of d with
            | Some v => int_digits (10 * acc + v) rest'
            | None => None
            end
        | [] => None
        end
      else
        match digit_of c with
        | Some v => int_digits (10 * acc + v) rest
        | None => None
        end
  end.

Definition int_unsigned (s : list ascii) : option Z :=
  match s with
  | c :: rest =>
      match digit_of c with
      | Some v => int_digits v rest
      | None => None
      end
  | [] => None
  end.

(** [int(s)] for an ASCII [str], base ten: surrounding white space, an
    optional sign, digits with single underscores between them.  [None]
    stands for [ValueError]. *)
Definition int (s : string) : option Z :=
  match strip (list_ascii_of_string s) with
  | "-"%char :: rest => option_map Z.opp (int_unsigned rest)
  | "+"%char :: rest => int_unsigned rest
  | body => int_unsigned body
  end.

(** [sep.join(lines)]. *)
Fixpoint join (sep : string) (lines : list string) : string :=
  match lines with
  | [] => ""
  | [l] => l
  | l :: rest => l ++ sep ++ join sep rest
  end.

End Py.

(** ** The counters of a run: the global dict [stats] *)

Record Stats : Type := mkStats {
  added : Z;
  deleted : Z;
  deleted_contents : Z;
  resumed : Z;
  rechecked : Z;
  orphaned : Z;
  recycle_emptied : Z;
  orphaned_emptied : Z;
  tagged : Z;
  categorized : Z;
  rem_unreg : Z;
  tagged_tracker_error : Z;
  untagged_tracker_error : Z;
  tagged_noHL : Z;
  untagged_noHL : Z;
  updated_share_limits : Z;
  cleaned_share_limits : Z
}.

(** The dict [start] assigns to [stats] at the start of every run. *)
Definition zero_stats : Stats :=
  mkStats 0 0 0 0 0 0 0 0 0 0 0 0 0 0 0 0 0.

(** The keys of [stats]. *)
Inductive Counter : Type :=
| Added | Deleted | DeletedContents | Resumed | Rechecked | Orphaned
| RecycleEmptied | OrphanedEmptied | Tagged | Categorized | RemUnreg
| TaggedTrackerError | UntaggedTrackerError | TaggedNoHL | UntaggedNoHL
| UpdatedShareLimits | CleanedShareLimits.

(** [stats[key]]. *)
Definition counter (c : Counter) (s : Stats) : Z :=
  match c with
  | Added => added s
  | Deleted => deleted s
  | DeletedContents => deleted_contents s
  | Resumed => resumed s
  | Rechecked => rechecked s
  | Orphaned => orphaned s
  | RecycleEmptied => recycle_emptied s
  | OrphanedEmptied => orphaned_emptied s
  | Tagged => tagged s
  | Categorized => categorized s
  | RemUnreg => rem_unreg s
  | TaggedTrackerError => tagged_tracker_error s
  | UntaggedTrackerError => untagged_tracker_error s
  | TaggedNoHL => tagged_noHL s
  | UntaggedNoHL => untagged_noHL s
  | UpdatedShareLimits => updated_share_limits s
  | CleanedShareLimits => cleaned_share_limits s
  end.

Definition Counter_eq_dec (a b : Counter) : {a = b} + {a <> b}.
Proof. decide equality. Defined.

(** ** The summary of a run *)

(** [if cond: stats_summary.append(line)]. *)
Definition append_if (cond : bool) (line : string) (stats_summary : list string)
  : list string :=
  if cond then stats_summary ++ [line] else stats_summary.

(** The seventeen [if stats[...] > 0: stats_summary.append(...)] statements of
    [start], in the order of the source.  The two tags are
    [cfg.tracker_error_tag] and [cfg.nohardlinks_tag]. *)
Definition stats_summary_of (tracker_error_tag nohardlinks_tag : string)
  (stats : Stats) : list string :=
  let s := [] in
  let s := append_if (0 <? categorized stats)
    ("Total Torrents Categorized: " ++ Py.str_of_int (categorized stats)) s in
  let s := append_if (0 <? tagged stats)
    ("Total Torrents Tagged: " ++ Py.str_of_int (tagged stats)) s in
  let s := append_if (0 <? rem_unreg stats)
    ("Total Unregistered Torrents Removed: " ++ Py.str_of_int (rem_unreg stats)) s in
  let s := append_if (0 <? tagged_tracker_error stats)
    ("Total " ++ tracker_error_tag ++ " Torrents Tagged: "
       ++ Py.str_of_int (tagged_tracker_error stats)) s in
  let s := append_if (0 <? untagged_tracker_error stats)
    ("Total " ++ tracker_error_tag ++ " Torrents untagged: "
       ++ Py.str_of_int (untagged_tracker_error stats)) s in
  let s := append_if (0 <? added stats)
    ("Total Torrents Added: " ++ Py.str_of_int (added stats)) s in
  let s := append_if (0 <? resumed stats)
    ("Total Torrents Resumed: " ++ Py.str_of_int (resumed stats)) s in
  let s := append_if (0 <? rechecked stats)
    ("Total Torrents Rechecked: " ++ Py.str_of_int (rechecked stats)) s in
  let s := append_if (0 <? deleted stats)
    ("Total Torrents Deleted: " ++ Py.str_of_int (deleted stats)) s in
  let s := append_if (0 <? deleted_contents stats)
    ("Total Torrents + Contents Deleted : "
       ++ Py.str_of_int (deleted_contents stats)) s in
  let s := append_if (0 <? orphaned stats)
    ("Total Orphaned Files: " ++ Py.str_of_int (orphaned stats)) s in
  let s := append_if (0 <? tagged_noHL stats)
    ("Total " ++ nohardlinks_tag ++ " Torrents Tagged: "
       ++ Py.str_of_int (tagged_noHL stats)) s in
  let s := append_if (0 <? untagged_noHL stats)
    ("Total " ++ nohardlinks_tag ++ " Torrents untagged: "
       ++ Py.str_of_int (untagged_noHL stats)) s in
  let s := append_if (0 <? updated_share_limits stats)
    ("Total Share Limits Updated: "
       ++ Py.str_of_int (updated_share_limits stats)) s in
  let s := append_if (0 <? cleaned_share_limits stats)
    ("Total Torrents Removed from Meeting Share Limits: "
       ++ Py.str_of_int (cleaned_share_limits stats)) s in
  let s := append_if (0 <? recycle_emptied stats)
    ("Total Files Deleted from Recycle Bin: "
       ++ Py.str_of_int (recycle_emptied stats)) s in
  let s := append_if (0 <? orphaned_emptied stats)
    ("Total Files Deleted from Orphaned Data: "
       ++ Py.str_of_int (orphaned_emptied stats)) s in
  s.

(** What a summary line says before the count, per counter (the text of the
    f-strings of [start]). *)
Definition summary_label (tracker_error_tag nohardlinks_tag : string)
  (c : Counter) : string :=
  match c with
  | Categorized => "Total Torrents Categorized: "
  | Tagged => "Total Torrents Tagged: "
  | RemUnreg => "Total Unregistered Torrents Removed: "
  | TaggedTrackerError => "Total " ++ tracker_error_tag ++ " Torrents Tagged: "
  | UntaggedTrackerError => "Total " ++ tracker_error_tag ++ " Torrents untagged: "
  | Added => "Total Torrents Added: "
  | Resumed => "Total Torrents Resumed: "
  | Rechecked => "Total Torrents Rechecked: "
  | Deleted => "Total Torrents Deleted: "
  | DeletedContents => "Total Torrents + Contents Deleted : "
  | Orphaned => "Total Orphaned Files: "
  | TaggedNoHL => "Total " ++ nohardlinks_tag ++ " Torrents Tagged: "
  | UntaggedNoHL => "Total " ++ nohardlinks_tag ++ " Torrents untagged: "
  | UpdatedShareLimits => "Total Share Limits Updated: "
  | CleanedShareLimits => "Total Torrents Removed from Meeting Share Limits: "
  | RecycleEmptied => "Total Files Deleted from Recycle Bin: "
  | OrphanedEmptied => "Total Files Deleted from Orphaned Data: "
  end.

(** The line of one counter. *)
Definition summary_line (tracker_error_tag nohardlinks_tag : string)
  (stats : Stats) (c : Counter) : string :=
  summary_label tracker_error_tag nohardlinks_tag c
    ++ Py.str_of_int (counter c stats).

(** The lines of the counters of [order] that are above zero, in that
    order. *)
Definition summary_in_order (order : list Counter)
  (tracker_error_tag nohardlinks_tag : string) (stats : Stats) : list string :=
  flat_map
    (fun c =>
       if 0 <? counter c stats
       then [summary_line tracker_error_tag nohardlinks_tag stats c]
       else [])
    order.

(** The order in which [start] tests the counters. *)
Definition source_order : list Counter :=
  [Categorized; Tagged; RemUnreg; TaggedTrackerError; UntaggedTrackerError;
   Added; Resumed; Rechecked; Deleted; DeletedContents; Orphaned; TaggedNoHL;
   UntaggedNoHL; UpdatedShareLimits; CleanedShareLimits; RecycleEmptied;
   OrphanedEmptied].

(** The order in which the specification lists the counters
    (categorized, tagged, tagged-tracker-error, untagged-tracker-error,
    unregistered-removed, resumed, rechecked, deleted, deleted-with-contents,
    orphaned-found, tagged-no-hardlinks, untagged-no-hardlinks,
    share-limits-updated, share-limits-cleaned, recycle-bin-emptied,
    orphaned-dir-emptied, added). *)
Definition documented_order : list Counter :=
  [Categorized; Tagged; TaggedTrackerError; UntaggedTrackerError; RemUnreg;
   Resumed; Rechecked; Deleted; DeletedContents; Orphaned; TaggedNoHL;
   UntaggedNoHL; UpdatedShareLimits; CleanedShareLimits; RecycleEmptied;
   OrphanedEmptied; Added].

(** The summary as the specification words it: one line per counter above
    zero, in the documented order. *)
Definition documented_summary := summary_in_order documented_order.

(** [stats[key] += n]. *)
Definition add_to (key : Counter) (n : Z) (s : Stats) : Stats :=
  let put (c : Counter) (old : Z) : Z :=
    if Counter_eq_dec c key then old + n else old in
  {| added := put Added (added s);
     deleted := put Deleted (deleted s);
     deleted_contents := put DeletedContents (deleted_contents s);
     resumed := put Resumed (resumed s);
     rechecked := put Rechecked (rechecked s);
     orphaned := put Orphaned (orphaned s);
     recycle_emptied := put RecycleEmptied (recycle_emptied s);
     orphaned_emptied := put OrphanedEmptied (orphaned_emptied s);
     tagged := put Tagged (tagged s);
     categorized := put Categorized (categorized s);
     rem_unreg := put RemUnreg (rem_unreg s);
     tagged_tracker_error := put TaggedTrackerError (tagged_tracker_error s);
     untagged_tracker_error := put UntaggedTrackerError (untagged_tracker_error s);
     tagged_noHL := put TaggedNoHL (tagged_noHL s);
     untagged_noHL := put UntaggedNoHL (untagged_noHL s);
     updated_share_limits := put UpdatedShareLimits (updated_share_limits s);
     cleaned_share_limits := put CleanedShareLimits (cleaned_share_limits s) |}.

(** ** Time *)

(** [datetime] and [timedelta], in microseconds. *)
Definition datetime : Type := Z.
Definition timedelta : Type := Z.

(** [timedelta(minutes=m)] and [timedelta(seconds=s)]. *)
Definition td_minutes (m : Z) : timedelta := m * 60000000.
Definition td_seconds (s : Z) : timedelta := s * 1000000.

(** ** The collaborators *)

(** What a call to a collaborator answers, and how long the call took. *)
Record Call (A : Type) : Type := mkCall {
  took : N;
  returned : A
}.
Arguments mkCall {A} _ _.
Arguments took {A} _.
Arguments returned {A} _.

(** [cfg.commands]: the eight keys [start] reads, and [skip_cleanup], the
    command-line switch of the two clean-up stages, which [start] never
    reads. *)
Record Commands : Type := mkCommands {
  cat_update : bool;
  tag_update : bool;
  rem_unregistered : bool;
  tag_tracker_error : bool;
  recheck : bool;
  tag_nohardlinks : bool;
  share_limits : bool;
  rem_orphaned : bool;
  skip_cleanup : bool
}.

(** The attributes [start] reads of a [RemoveUnregistered], a [ReCheck], a
    [TagNoHardLinks] and a [ShareLimits] object. *)
Record RemoveUnregisteredStats : Type := mkRemoveUnregistered {
  ru_stats_deleted : Z;
  ru_stats_deleted_contents : Z;
  ru_stats_tagged : Z;
  ru_stats_untagged : Z
}.

Record ReCheckStats : Type := mkReCheck {
  rc_stats_resumed : Z;
  rc_stats_rechecked : Z
}.

Record TagNoHardLinksStats : Type := mkTagNoHardLinks {
  nhl_stats_tagged : Z;
  nhl_stats_untagged : Z
}.

Record ShareLimitsStats : Type := mkShareLimits {
  sl_stats_tagged : Z;
  sl_stats_deleted : Z;
  sl_stats_deleted_contents : Z
}.

(** [cfg.qbt], the client handle: what each stage built on it answers.  A
    stage is built at most once per handle, so one answer per stage is all
    a run can see. *)
Record Qbt : Type := mkQbt {
  Category : Call Z;
  Tags : Call Z;
  RemoveUnregistered : Call RemoveUnregisteredStats;
  ReCheck : Call ReCheckStats;
  TagNoHardLinks : Call TagNoHardLinksStats;
  ShareLimits : Call ShareLimitsStats;
  RemoveOrphaned : Call Z
}.

(** A [Config] object.  [qbt] is [None] when [cfg.qbt] is falsy;
    [end_time_hooks] answers [true] when the call raises [Failed]. *)
Record Cfg : Type := mkCfg {
  commands : Commands;
  qbt : option Qbt;
  tracker_error_tag : string;
  nohardlinks_tag : string;
  cleanup_dirs_recycle_bin : Call Z;
  cleanup_dirs_orphaned_data : Call Z;
  end_time_hooks : Call bool
}.

(** Everything outside the file.
    - [croniter_accepts e]: [croniter(e)] raises nothing;
    - [croniter_get_next e base]: [croniter(e, base).get_next(datetime)],
      [None] when it raises;
    - [glob pattern]: the file names [glob.glob] finds under the
      configuration directory, directories stripped;
    - [Config file t]: [Config(default_dir, args)] called at [t] with
      [args["config_file"] = file], [None] when it (or reading [cfg.qbt])
      raises;
    - [sleep_overrun t]: how much longer than asked a [time.sleep] begun at
      [t] lasts;
    - [sigterm]: when [GracefulKiller] sets its flag, if ever: at the first
      termination signal that reaches it. *)
Record World : Type := mkWorld {
  croniter_accepts : string -> bool;
  croniter_get_next : string -> datetime -> option datetime;
  glob : string -> list string;
  Config : option string -> datetime -> Call (option Cfg);
  sleep_overrun : datetime -> N;
  sigterm : option datetime
}.

(** The module-level variables the functions read. *)
Record Globals : Type := mkGlobals {
  run : bool;
  sch : Py.value;
  startupDelay : Z;
  config_files : list string
}.

(** ** The process *)

(** The nine stages of [start], in the order of the source. *)
Inductive Stage : Type :=
| StCategory | StTags | StRemoveUnregistered | StReCheck | StTagNoHardLinks
| StShareLimits | StRemoveOrphaned | StRecycleBin | StOrphanedData.

Definition Stage_eq_dec (a b : Stage) : {a = b} + {a <> b}.
Proof. decide equality. Defined.

(** What the process does that can be seen from outside. *)
Inductive Event : Type :=
| EvPrintLogo
| EvAddConfigHandler (config_file : string)
| EvRemoveConfigHandler (config_file : string)
| EvStartingRun (config_file : option string) (start_time : datetime)
| EvConfigFailed
| EvStage (stage : Stage) (at_time : datetime)
| EvFinishedRun (end_time : datetime) (run_time : Z)
    (next_run : option datetime) (stats_summary : list string)
| EvEndTimeHooks (start_time end_time : datetime) (run_time : Z)
    (next_run : option datetime) (stats : Stats) (stats_summary : list string)
| EvWebhooksError
| EvInvalidCron
| EvConfigError
| EvInvalidSchedule
| EvStartupDelayError
| EvSleep (secs : Z)
| EvExiting.

(** A job of the [schedule] library: its function is always [start_loop]. *)
Record Job : Type := mkJob {
  job_id : nat;
  next_run : datetime;
  period : timedelta
}.

Record Process : Type := mkProcess {
  now : datetime;                    (* what datetime.now() answers *)
  jobs : list Job;                   (* schedule.jobs *)
  fresh_job : nat;                   (* identity of the next Job object *)
  stats : Stats;                     (* the global stats *)
  args_config_file : option string;  (* args["config_file"] *)
  log : list Event                   (* the events so far, oldest first *)
}.

Inductive Halt : Type :=
| SysExit (code : Z)
| Uncaught (exception : string).

Inductive Outcome (A : Type) : Type :=
| Ret (a : A) (p : Process)
| Stop (h : Halt) (p : Process).
Arguments Ret {A} _ _.
Arguments Stop {A} _ _.

Definition M (A : Type) : Type := Process -> Outcome A.

Definition ret {A : Type} (a : A) : M A := fun p => Ret a p.

Definition bind {A B : Type} (m : M A) (k : A -> M B) : M B :=
  fun p =>
    match m p with
    | Ret a p' => k a p'
    | Stop h p' => Stop h p'
    end.

Declare Scope proc_scope.
Delimit Scope proc_scope with proc.
Notation "x <- m ;; k" := (bind m (fun x => k))
  (at level 61, m at next level, right associativity) : proc_scope.
Notation "m ;; k" := (bind m (fun _ => k))
  (at level 61, right associativity) : proc_scope.
Notation "' pat <- m ;; k" := (bind m (fun x => let 'pat := x in k))
  (at level 61, pat pattern, m at next level, right associativity) : proc_scope.
Local Open Scope proc_scope.

(** The process after a command, whether it returned or halted. *)
Definition final {A : Type} (o : Outcome A) : Process :=
  match o with
  | Ret _ p => p
  | Stop _ p => p
  end.

Definition halted {A : Type} (o : Outcome A) : option Halt :=
  match o with
  | Ret _ _ => None
  | Stop h _ => Some h
  end.

Definition sys_exit {A : Type} (code : Z) : M A := fun p => Stop (SysExit code) p.
Definition raise {A : Type} (exception : string) : M A :=
  fun p => Stop (Uncaught exception) p.

Definition datetime_now : M datetime := fun p => Ret (now p) p.

Definition emit (e : Event) : M unit :=
  fun p => Ret tt (mkProcess (now p) (jobs p) (fresh_job p) (stats p)
                     (args_config_file p) (log p ++ [e])).

Definition elapse (d : N) : M unit :=
  fun p => Ret tt (mkProcess (now p + Z.of_N d) (jobs p) (fresh_job p) (stats p)
                     (args_config_file p) (log p)).

Definition call {A : Type} (c : Call A) : M A :=
  elapse (took c) ;; ret (returned c).

Definition get_stats : M Stats := fun p => Ret (stats p) p.

Definition set_stats (s : Stats) : M unit :=
  fun p => Ret tt (mkProcess (now p) (jobs p) (fresh_job p) s
                     (args_config_file p) (log p)).

(** [stats[key] += n] on the global. *)
Definition stats_add (key : Counter) (n : Z) : M unit :=
  fun p => Ret tt (mkProcess (now p) (jobs p) (fresh_job p)
                     (add_to key n (stats p)) (args_config_file p) (log p)).

Definition set_args_config_file (config_file : string) : M unit :=
  fun p => Ret tt (mkProcess (now p) (jobs p) (fresh_job p) (stats p)
                     (Some config_file) (log p)).

Definition get_args_config_file : M (option string) :=
  fun p => Ret (args_config_file p) p.

(** ** The [schedule] library

    The part of the third-party [schedule] package the program uses, on the
    default scheduler: [clear], [every(n).<unit>.do(start_loop)] and
    [run_pending]. *)

Module Schedule.

(** [schedule.clear()]. *)
Definition clear : M unit :=
  fun p => Ret tt (mkProcess (now p) [] (fresh_job p) (stats p)
                     (args_config_file p) (log p)).

(** [schedule.every(n).<unit>.do(start_loop)], with [period] the
    [timedelta] of [n] units: a new job, due one period from now, at the
    end of the table. *)
Definition every_do (period : timedelta) : M unit :=
  fun p => Ret tt (mkProcess (now p)
                     (jobs p ++ [mkJob (fresh_job p) (now p + period) period])
                     (S (fresh_job p)) (stats p) (args_config_file p) (log p)).

(** [job.should_run]. *)
Definition should_run (t : datetime) (j : Job) : bool := next_run j <=? t.

(** [sorted(jobs)]: jobs compare by [next_run]; the sort is stable. *)
Fixpoint insert (j : Job) (l : list Job) : list Job :=
  match l with
  | [] => [j]
  | k :: rest => if next_run k <=? next_run j then k :: insert j rest else j :: l
  end.

Definition sorted (l : list Job) : list Job :=
  fold_left (fun acc j => insert j acc) l [].

(** The end of [job.run()]: the Job object is due one period from now.
    The table shows it only if the object is still in it. *)
Definition reschedule (j : Job) : M unit :=
  fun p =>
    Ret tt (mkProcess (now p)
              (map (fun k =>
                      if Nat.eqb (job_id k) (job_id j)
                      then mkJob (job_id k) (now p + period j) (period j)
                      else k)
                   (jobs p))
              (fresh_job p) (stats p) (args_config_file p) (log p)).

Fixpoint run_jobs (job_func : M unit) (runnable : list Job) : M unit :=
  match runnable with
  | [] => ret tt
  | j :: rest => job_func ;; reschedule j ;; run_jobs job_func rest
  end.

(** [schedule.run_pending()]: the jobs due now, found before any of them
    runs, run in the order of their due times. *)
Definition run_pending (job_func : M unit) : M unit :=
  fun p => run_jobs job_func (sorted (filter (should_run (now p)) (jobs p))) p.

End Schedule.

(** ** The functions of [qbit_manage.py] *)

Section Program.

Variable w : World.
Variable g : Globals.

(** [is_valid_cron_syntax(cron_expression)]: [croniter(str(...))] raises
    neither [ValueError] nor [KeyError].  ([lru_cache] changes no
    answer.) *)
Definition is_valid_cron_syntax (cron_expression : Py.value) : bool :=
  croniter_accepts w (Py.str cron_expression).

(** [croniter(cron_expression, base_time).get_next(datetime)] under
    [except Exception]: [None] when either call raises, as the
    constructor does on an [int]. *)
Definition croniter_next (cron_expression : Py.value) (base_time : datetime)
  : option datetime :=
  match cron_expression with
  | Py.Str e =>
      if croniter_accepts w e then croniter_get_next w e base_time else None
  | Py.Int _ => None
  end.

Definition schedule_from_cron (cron_expression : Py.value) : M datetime :=
  Schedule.clear ;;
  base_time <- datetime_now ;;
  match croniter_next cron_expression base_time with
  | Some next_run_time =>
      let delay := next_run_time - base_time in
      Schedule.every_do delay ;;
      ret next_run_time
  | None =>
      emit EvInvalidCron ;;
      sys_exit 1
  end.

(** [schedule_every_x_minutes(min)], the range of [datetime] and
    [timedelta] left out; [Ranged.schedule_every_x_minutes] has it. *)
Definition schedule_every_x_minutes (min : Z) : M datetime :=
  Schedule.clear ;;
  Schedule.every_do (td_minutes min) ;;
  t <- datetime_now ;;
  ret (t + td_minutes min).

(** [calc_next_run(next_run_time)["next_run"]]. *)
Definition calc_next_run (next_run_time : datetime) : option datetime :=
  if run g then None else Some next_run_time.

(** [timedelta(minutes=sch)] followed by [schedule_every_x_minutes(sch)]:
    a [str] is a [TypeError]. *)
Definition every_sch_minutes : M datetime :=
  match sch g with
  | Py.Int min => schedule_every_x_minutes min
  | Py.Str _ => raise "TypeError"
  end.

(** The closure [finished_run] of [start]; it answers [end_time], the
    whole seconds of [run_time] and [next_run]. *)
Definition finished_run (start_time : datetime) (stats_summary : list string)
  : M (datetime * Z * option datetime) :=
  end_time <- datetime_now ;;
  let run_time := (end_time - start_time) / 1000000 in
  next_run_time <-
    (if run g then datetime_now
     else if is_valid_cron_syntax (sch g) then schedule_from_cron (sch g)
     else every_sch_minutes) ;;
  let next_run := calc_next_run next_run_time in
  emit (EvFinishedRun end_time run_time next_run stats_summary) ;;
  ret (end_time, run_time, next_run).

(** A stage is built: the event, then the call. *)
Definition stage {A : Type} (s : Stage) (c : Call A) : M A :=
  t <- datetime_now ;;
  emit (EvStage s t) ;;
  call c.

(** [if cond: body]. *)
Definition when (cond : bool) (body : M unit) : M unit :=
  if cond then body else ret tt.

(** The body of [if qbit_manager:] in [start]. *)
Definition pipeline (cfg : Cfg) (qbit_manager : Qbt) : M unit :=
  when (cat_update (commands cfg))
    (n <- stage StCategory (Category qbit_manager) ;;
     stats_add Categorized n) ;;
  when (tag_update (commands cfg))
    (n <- stage StTags (Tags qbit_manager) ;;
     stats_add Tagged n) ;;
  when (rem_unregistered (commands cfg) || tag_tracker_error (commands cfg))
    (rem_unreg <- stage StRemoveUnregistered (RemoveUnregistered qbit_manager) ;;
     stats_add RemUnreg
       (ru_stats_deleted rem_unreg + ru_stats_deleted_contents rem_unreg) ;;
     stats_add Deleted (ru_stats_deleted rem_unreg) ;;
     stats_add DeletedContents (ru_stats_deleted_contents rem_unreg) ;;
     stats_add TaggedTrackerError (ru_stats_tagged rem_unreg) ;;
     stats_add UntaggedTrackerError (ru_stats_untagged rem_unreg) ;;
     stats_add Tagged (ru_stats_tagged rem_unreg)) ;;
  when (recheck (commands cfg))
    (recheck <- stage StReCheck (ReCheck qbit_manager) ;;
     stats_add Resumed (rc_stats_resumed recheck) ;;
     stats_add Rechecked (rc_stats_rechecked recheck)) ;;
  when (tag_nohardlinks (commands cfg))
    (no_hardlinks <- stage StTagNoHardLinks (TagNoHardLinks qbit_manager) ;;
     stats_add Tagged (nhl_stats_tagged no_hardlinks) ;;
     stats_add TaggedNoHL (nhl_stats_tagged no_hardlinks) ;;
     stats_add UntaggedNoHL (nhl_stats_untagged no_hardlinks)) ;;
  when (share_limits (commands cfg))
    (share_limits <- stage StShareLimits (ShareLimits qbit_manager) ;;
     stats_add Tagged (sl_stats_tagged share_limits) ;;
     stats_add UpdatedShareLimits (sl_stats_tagged share_limits) ;;
     stats_add Deleted (sl_stats_deleted share_limits) ;;
     stats_add DeletedContents (sl_stats_deleted_contents share_limits) ;;
     stats_add CleanedShareLimits
       (sl_stats_deleted share_limits + sl_stats_deleted_contents share_limits)) ;;
  when (rem_orphaned (commands cfg))
    (n <- stage StRemoveOrphaned (RemoveOrphaned qbit_manager) ;;
     stats_add Orphaned n) ;;
  n <- stage StRecycleBin (cleanup_dirs_recycle_bin cfg) ;;
  stats_add RecycleEmptied n ;;
  n <- stage StOrphanedData (cleanup_dirs_orphaned_data cfg) ;;
  stats_add OrphanedEmptied n.

(** [cfg.webhooks_factory.end_time_hooks(...)] under [except Failed]. *)
Definition notify (cfg : Cfg) (start_time end_time : datetime) (run_time : Z)
  (next_run : option datetime) (stats_summary : list string) : M unit :=
  stats <- get_stats ;;
  emit (EvEndTimeHooks start_time end_time run_time next_run stats
          stats_summary) ;;
  failed <- call (end_time_hooks cfg) ;;
  when failed (emit EvWebhooksError).

Definition start : M unit :=
  start_time <- datetime_now ;;
  config_file <- get_args_config_file ;;
  emit (EvStartingRun config_file start_time) ;;
  set_stats zero_stats ;;
  loaded <- call (Config w config_file start_time) ;;
  match loaded with
  | None =>
      emit EvConfigFailed ;;
      finished_run start_time [] ;;
      ret tt
  | Some cfg =>
      match qbt cfg with
      | Some qbit_manager => pipeline cfg qbit_manager
      | None => ret tt
      end ;;
      stats <- get_stats ;;
      let stats_summary :=
        stats_summary_of (tracker_error_tag cfg) (nohardlinks_tag cfg) stats in
      '(end_time, run_time, next_run) <- finished_run start_time stats_summary ;;
      notify cfg start_time end_time run_time next_run stats_summary
  end.

(** One turn of the [for] loop of [start_loop]. *)
Definition start_one (first_run : bool) (config_file : string) : M unit :=
  set_args_config_file config_file ;;
  emit (EvAddConfigHandler config_file) ;;
  when (negb first_run) (emit EvPrintLogo) ;;
  start ;;
  emit (EvRemoveConfigHandler config_file).

Fixpoint for_each (files : list string) (body : string -> M unit) : M unit :=
  match files with
  | [] => ret tt
  | config_file :: rest => body config_file ;; for_each rest body
  end.

Definition start_loop (first_run : bool) : M unit :=
  match config_files g with
  | [config_file] =>
      set_args_config_file config_file ;;
      when (negb first_run) (emit EvPrintLogo) ;;
      start
  | files => for_each files (start_one first_run)
  end.

(** Modelled from the spec: [GracefulKiller] is in [modules.util], not in
    this file.  "A two-state machine: Running -> ShutdownRequested on
    receipt of a termination signal": [killer.kill_now] is false until the
    signal arrives and true from then on. *)
Definition kill_now : M bool :=
  fun p =>
    Ret (match sigterm w with
         | Some t => t <=? now p
         | None => false
         end) p.

(** [time.sleep(secs)]: a negative length is a [ValueError]. *)
Definition sleep (secs : Z) : M unit :=
  if secs <? 0 then raise "ValueError"
  else
    emit (EvSleep secs) ;;
    t <- datetime_now ;;
    elapse (Z.to_N (td_seconds secs) + sleep_overrun w t).

(** [end()]. *)
Definition end_ : M unit :=
  emit EvExiting ;;
  sys_exit 0.

(** The [while not killer.kill_now] loop, for at most [ticks] turns; it
    returns only when the turns are used up. *)
Fixpoint polling (ticks : nat) : M unit :=
  match ticks with
  | O => ret tt
  | S ticks' =>
      stop <- kill_now ;;
      if stop then end_
      else
        Schedule.run_pending (start_loop false) ;;
        sleep 60 ;;
        polling ticks'
  end.

(** The body of [try:] in the [__main__] block, after [print_logo]: the
    block as long as no [KeyboardInterrupt] is raised.  Without [run] it
    returns only when the turns of the loop are used up.
    [Interruptible.main] is the block with its [except KeyboardInterrupt]. *)
Definition main (ticks : nat) : M unit :=
  emit EvPrintLogo ;;
  if run g then start_loop true
  else
    (if is_valid_cron_syntax (sch g) then
       schedule_from_cron (sch g) ;; ret tt
     else
       every_sch_minutes ;;
       when (negb (startupDelay g =? 0)) (sleep (startupDelay g)) ;;
       start_loop true) ;;
    polling ticks.

End Program.

(** ** The module-level code that runs before [__main__] *)

(** The command line, as [argparse] hands it over. *)
Record Argv : Type := mkArgv {
  argv_run : bool;
  argv_schedule : string;
  argv_startupDelay : string;
  argv_configfiles : string
}.

(** ["*" in config_files]. *)
Definition has_star (s : string) : bool :=
  existsb (Ascii.eqb "*"%char) (list_ascii_of_string s).

(** [if "*" not in config_files: ... else: ...]; [None] is [sys.exit(1)]. *)
Definition resolve_config_files (w : World) (config_files : string)
  : option (list string) :=
  if negb (has_star config_files) then Some [config_files]
  else
    match glob w config_files with
    | [] => None
    | glob_configs => Some glob_configs
    end.

(** [try: sch = int(sch) except ValueError: if not is_valid_cron_syntax(sch):
    ... sys.exit(1)]; [None] is the exit. *)
Definition check_schedule (w : World) (sch : string) : option Py.value :=
  match Py.int sch with
  | Some n => Some (Py.Int n)
  | None =>
      if negb (is_valid_cron_syntax w (Py.Str sch)) then None
      else Some (Py.Str sch)
  end.

(** [try: startupDelay = int(startupDelay) except ValueError: ...
    sys.exit(1)]. *)
Definition check_startup_delay (startupDelay : string) : option Z :=
  Py.int startupDelay.

(** The process when the interpreter starts, at [t0]. *)
Definition boot (t0 : datetime) : Process :=
  mkProcess t0 [] 0 zero_stats None [].

(** The whole script. *)
Definition qbit_manage (w : World) (argv : Argv) (ticks : nat) : M unit :=
  match resolve_config_files w (argv_configfiles argv) with
  | None => emit EvConfigError ;; sys_exit 1
  | Some config_files =>
      match check_schedule w (argv_schedule argv) with
      | None => emit EvInvalidSchedule ;; sys_exit 1
      | Some sch =>
          match check_startup_delay (argv_startupDelay argv) with
          | None => emit EvStartupDelayError ;; sys_exit 1
          | Some startupDelay =>
              main w (mkGlobals (argv_run argv) sch startupDelay config_files)
                ticks
          end
      end
  end.

(** ** Reading a log *)

(** The configuration files of the runs begun, oldest first. *)
Fixpoint runs_begun (l : list Event) : list (option string) :=
  match l with
  | [] => []
  | EvStartingRun config_file _ :: rest => config_file :: runs_begun rest
  | _ :: rest => runs_begun rest
  end.

(** When the runs began. *)
Fixpoint run_starts (l : list Event) : list datetime :=
  match l with
  | [] => []
  | EvStartingRun _ start_time :: rest => start_time :: run_starts rest
  | _ :: rest => run_starts rest
  end.

(** The stages built, oldest first. *)
Fixpoint stages_built (l : list Event) : list Stage :=
  match l with
  | [] => []
  | EvStage s _ :: rest => s :: stages_built rest
  | _ :: rest => stages_built rest
  end.

(** How many times the web hooks were called. *)
Fixpoint hooks_called (l : list Event) : nat :=
  match l with
  | [] => O
  | EvEndTimeHooks _ _ _ _ _ _ :: rest => S (hooks_called rest)
  | _ :: rest => hooks_called rest
  end.

(** The lengths of the sleeps. *)
Fixpoint sleeps (l : list Event) : list Z :=
  match l with
  | [] => []
  | EvSleep secs :: rest => secs :: sleeps rest
  | _ :: rest => sleeps rest
  end.

(** ** The cron grammar and its next occurrence *)

Module Cron.

(** One element of a field: [*], [*/step], [n], [a-b] or [a-b/step], with
    [n] kept as [n-n] and a missing step as 1. *)
Inductive Item : Type :=
| Star (step : Z)
| Range (lo hi step : Z).

Definition Field : Type := list Item.

Record Expr : Type := mkExpr {
  minute : Field;
  hour : Field;
  day_of_month : Field;
  month : Field;
  day_of_week : Field
}.

(** *** Syntax *)

(** The fields of a line: what white space separates. *)
Fixpoint words (cur : list ascii) (s : list ascii) : list (list ascii) :=
  match s with
  | [] => match cur with [] => [] | _ => [rev cur] end
  | c :: rest =>
      if Py.is_space c
      then match cur with
           | [] => words [] rest
           | _ => rev cur :: words [] rest
           end
      else words (c :: cur) rest
  end.

(** [s.split(sep)]. *)
Fixpoint split_on (sep : ascii) (cur : list ascii) (s : list ascii)
  : list (list ascii) :=
  match s with
  | [] => [rev cur]
  | c :: rest =>
      if Ascii.eqb c sep then rev cur :: split_on sep [] rest
      else split_on sep (c :: cur) rest
  end.

Fixpoint digits (acc : Z) (s : list ascii) : option Z :=
  match s with
  | [] => Some acc
  | c :: rest =>
      match Py.digit_of c with
      | Some v => digits (10 * acc + v) rest
      | None => None
      end
  end.

(** A number: one digit or more. *)
Definition number (s : list ascii) : option Z :=
  match s with
  | [] => None
  | _ => digits 0 s
  end.

(** [n] or [a-b], within the bounds of the field. *)
Definition parse_range (lo hi : Z) (s : list ascii) : option (Z * Z) :=
  match split_on "-"%char [] s with
  | [a] =>
      match number a with
      | Some n => if (lo <=? n) && (n <=? hi) then Some (n, n) else None
      | None => None
      end
  | [a; b] =>
      match number a, number b with
      | Some x, Some y =>
          if (lo <=? x) && (x <=? y) && (y <=? hi) then Some (x, y) else None
      | _, _ => None
      end
  | _ => None
  end.

Definition parse_item (lo hi : Z) (s : list ascii) : option Item :=
  match split_on "/"%char [] s with
  | [r] =>
      match r with
      | ["*"%char] => Some (Star 1)
      | _ =>
          match parse_range lo hi r with
          | Some (a, b) => Some (Range a b 1)
          | None => None
          end
      end
  | [r; st] =>
      match number st with
      | Some step =>
          if 1 <=? step then
            match r with
            | ["*"%char] => Some (Star step)
            | _ =>
                match split_on "-"%char [] r, parse_range lo hi r with
                | [_; _], Some (a, b) => Some (Range a b step)
                | _, _ => None
                end
            end
          else None
      | None => None
      end
  | _ => None
  end.

Fixpoint parse_items (lo hi : Z) (l : list (list ascii)) : option Field :=
  match l with
  | [] => Some []
  | s :: rest =>
      match parse_item lo hi s, parse_items lo hi rest with
      | Some i, Some f => Some (i :: f)
      | _, _ => None
      end
  end.

(** A field: elements separated by commas. *)
Definition parse_field (lo hi : Z) (s : list ascii) : option Field :=
  parse_items lo hi (split_on ","%char [] s).

(** Modelled from the spec: the grammar of the [croniter] package, which
    the repository imports and does not contain.  The specification asks
    for a syntactically valid 5-field cron expression, checked via a
    standard cron grammar: five fields separated by white space, minute
    0-59, hour 0-23, day of month 1-31, month 1-12, day of week 0-7
    (0 and 7 are Sunday); a field is a comma-separated list of [*], a
    number or a range, and [*] and a range may carry [/step]. *)
Definition parse (s : string) : option Expr :=
  match words [] (list_ascii_of_string s) with
  | [mi; ho; dm; mo; dw] =>
      match parse_field 0 59 mi, parse_field 0 23 ho, parse_field 1 31 dm,
            parse_field 1 12 mo, parse_field 0 7 dw with
      | Some a, Some b, Some c, Some d, Some e => Some (mkExpr a b c d e)
      | _, _, _, _, _ => None
      end
  | _ => None
  end.

(** *** The calendar *)

Definition usec_per_minute : Z := 60000000.

Definition minute_of (t : datetime) : Z := (t / usec_per_minute) mod 60.
Definition hour_of (t : datetime) : Z := (t / (60 * usec_per_minute)) mod 24.
Definition days_of (t : datetime) : Z := t / (1440 * usec_per_minute).

(** Sunday is 0; day 0 of the count is a Thursday. *)
Definition weekday_of (t : datetime) : Z := (days_of t + 4) mod 7.

(** The month and the day of the month of a day count (proleptic
    Gregorian calendar, day 0 being 1 January 1970). *)
Definition month_day_of_days (z : Z) : Z * Z :=
  let z := z + 719468 in
  let era := z / 146097 in
  let doe := z - era * 146097 in
  let yoe := (doe - doe / 1460 + doe / 36524 - doe / 146096) / 365 in
  let doy := doe - (365 * yoe + yoe / 4 - yoe / 100) in
  let mp := (5 * doy + 2) / 153 in
  let d := doy - (153 * mp + 2) / 5 + 1 in
  let m := if mp <? 10 then mp + 3 else mp - 9 in
  (m, d).

Definition month_of (t : datetime) : Z := fst (month_day_of_days (days_of t)).
Definition day_of (t : datetime) : Z := snd (month_day_of_days (days_of t)).

(** *** Field constraints *)

(** [v] satisfies an element of a field whose least value is [lo]. *)
Definition item_matches (lo : Z) (v : Z) (i : Item) : bool :=
  match i with
  | Star step => (v - lo) mod step =? 0
  | Range a b step => (a <=? v) && (v <=? b) && ((v - a) mod step =? 0)
  end.

Definition field_matches (lo : Z) (f : Field) (v : Z) : bool :=
  existsb (item_matches lo v) f.

(** Day of week: 7 is Sunday too. *)
Definition weekday_matches (f : Field) (v : Z) : bool :=
  field_matches 0 f v || ((v =? 0) && field_matches 0 f 7).

(** A field is restricted unless it is [*]. *)
Definition restricted (f : Field) : bool :=
  match f with
  | [Star 1] => false
  | _ => true
  end.

(** The day: day of month and day of week, joined by OR when both are
    restricted. *)
Definition day_matches (e : Expr) (t : datetime) : bool :=
  let dom := field_matches 1 (day_of_month e) (day_of t) in
  let dow := weekday_matches (day_of_week e) (weekday_of t) in
  if restricted (day_of_month e) && restricted (day_of_week e)
  then dom || dow
  else dom && dow.

(** All five constraints, at a whole minute. *)
Definition matches (e : Expr) (t : datetime) : bool :=
  (t mod usec_per_minute =? 0)
  && field_matches 0 (minute e) (minute_of t)
  && field_matches 0 (hour e) (hour_of t)
  && field_matches 1 (month e) (month_of t)
  && day_matches e t.

(** *** The next occurrence *)

(** The least [z] with [p z] among the [n] integers from [start] on. *)
Fixpoint first_in (p : Z -> bool) (start : Z) (n : positive) : option Z :=
  match n with
  | xH => if p start then Some start else None
  | xO n' =>
      match first_in p start n' with
      | Some z => Some z
      | None => first_in p (start + Zpos n') n'
      end
  | xI n' =>
      match first_in p start n' with
      | Some z => Some z
      | None =>
          match first_in p (start + Zpos n') n' with
          | Some z => Some z
          | None =>
              if p (start + Zpos n'~0) then Some (start + Zpos n'~0) else None
          end
      end
  end.

(** How far ahead an occurrence is looked for: the minutes of fifty years
    of 366 days. *)
Definition horizon : positive := 26352000.

(** Modelled from the spec: [croniter(expr, base).get_next(datetime)] of
    the [croniter] package, which the repository imports and does not
    contain.  The specification asks for the next strictly-future
    occurrence per standard cron field semantics: the first whole minute
    after [base] that satisfies the five constraints.  [None] when there is
    none within the horizon (the call raises). *)
Definition get_next (e : Expr) (base : datetime) : option datetime :=
  option_map (fun k => k * usec_per_minute)
    (first_in (fun k => matches e (k * usec_per_minute))
       (base / usec_per_minute + 1) horizon).

Definition accepts (s : string) : bool :=
  match parse s with
  | Some _ => true
  | None => false
  end.

Definition next (s : string) (base : datetime) : option datetime :=
  match parse s with
  | Some e => get_next e base
  | None => None
  end.

(** A world whose [croniter] is this module's. *)
Definition install (w : World) : World :=
  mkWorld accepts next (glob w) (Config w) (sleep_overrun w) (sigterm w).

End Cron.

(** ** Vocabulary of the statements *)

(** The stages in the order in which [start] comes to them. *)
Definition pipeline_order : list Stage :=
  [StCategory; StTags; StRemoveUnregistered; StReCheck; StTagNoHardLinks;
   StShareLimits; StRemoveOrphaned; StRecycleBin; StOrphanedData].

(** What [start] tests before it builds a stage: nothing for the two
    clean-up stages. *)
Definition built_when (c : Commands) (s : Stage) : bool :=
  match s with
  | StCategory => cat_update c
  | StTags => tag_update c
  | StRemoveUnregistered => rem_unregistered c || tag_tracker_error c
  | StReCheck => recheck c
  | StTagNoHardLinks => tag_nohardlinks c
  | StShareLimits => share_limits c
  | StRemoveOrphaned => rem_orphaned c
  | StRecycleBin => true
  | StOrphanedData => true
  end.

(** The capability of a stage as the specification has it, every stage with
    one of its own: for the two clean-up stages, that clean-up is not
    skipped. *)
Definition capability (c : Commands) (s : Stage) : bool :=
  match s with
  | StRecycleBin => negb (skip_cleanup c)
  | StOrphanedData => negb (skip_cleanup c)
  | _ => built_when c s
  end.

(** The stages of a run, given what [Config] answered. *)
Definition stages_of (loaded : option Cfg) : list Stage :=
  match loaded with
  | Some cfg =>
      match qbt cfg with
      | Some _ => filter (built_when (commands cfg)) pipeline_order
      | None => []
      end
  | None => []
  end.

(** What a stage adds to a counter: its count if it was built. *)
Definition on (built : bool) (n : Z) : Z := if built then n else 0.

(** The end of a run cannot halt the process: there is nothing to rearm, or
    [croniter] always finds a next occurrence, or [sch] is a number of
    minutes. *)
Definition can_rearm (w : World) (g : Globals) : Prop :=
  run g = true
  \/ (is_valid_cron_syntax w (sch g) = true
      /\ forall t : datetime, croniter_next w (sch g) t <> None)
  \/ (is_valid_cron_syntax w (sch g) = false
      /\ exists m : Z, sch g = Py.Int m).

(** "A positive integer (minutes >= 1)", as the specification words the
    first form of a schedule. *)
Definition is_positive_integer (raw : string) : bool :=
  match Py.int raw with
  | Some n => 1 <=? n
  | None => false
  end.

Local Open Scope list_scope.

(** Events that are neither the start of a run nor a call of the web hooks
    nor a sleep. *)
Definition only_stages (evs : list Event) : Prop :=
  runs_begun evs = [] /\ run_starts evs = [] /\ hooks_called evs = 0%nat
  /\ sleeps evs = [].

(** Events that are not stages either. *)
Definition quiet (evs : list Event) : Prop :=
  stages_built evs = [] /\ only_stages evs.

(** A command of the pipeline: it returns, takes some time, builds the
    stages [built] and adds [delta] to the counters; it touches nothing
    else. *)
Definition adds (m : M unit) (built : list Stage) (delta : Counter -> Z) : Prop :=
  forall p : Process,
  exists (d : N) (evs : list Event) (st : Stats),
    m p = Ret tt (mkProcess (now p + Z.of_N d) (jobs p) (fresh_job p) st
                    (args_config_file p) (log p ++ evs))
    /\ (forall c, counter c st = counter c (stats p) + delta c)
    /\ stages_built evs = built
    /\ only_stages evs.

(** What the pipeline adds to a counter. *)
Definition pipeline_delta (cfg : Cfg) (q : Qbt) (c : Counter) : Z :=
  let cm := commands cfg in
  let ru := returned (RemoveUnregistered q) in
  let rc := returned (ReCheck q) in
  let nhl := returned (TagNoHardLinks q) in
  let sl := returned (ShareLimits q) in
  let unreg := rem_unregistered cm || tag_tracker_error cm in
  match c with
  | Added => 0
  | Deleted =>
      on unreg (ru_stats_deleted ru) + on (share_limits cm) (sl_stats_deleted sl)
  | DeletedContents =>
      on unreg (ru_stats_deleted_contents ru)
      + on (share_limits cm) (sl_stats_deleted_contents sl)
  | Resumed => on (recheck cm) (rc_stats_resumed rc)
  | Rechecked => on (recheck cm) (rc_stats_rechecked rc)
  | Orphaned => on (rem_orphaned cm) (returned (RemoveOrphaned q))
  | RecycleEmptied => returned (cleanup_dirs_recycle_bin cfg)
  | OrphanedEmptied => returned (cleanup_dirs_orphaned_data cfg)
  | Tagged =>
      on (tag_update cm) (returned (Tags q))
      + on unreg (ru_stats_tagged ru)
      + on (tag_nohardlinks cm) (nhl_stats_tagged nhl)
      + on (share_limits cm) (sl_stats_tagged sl)
  | Categorized => on (cat_update cm) (returned (Category q))
  | RemUnreg => on unreg (ru_stats_deleted ru + ru_stats_deleted_contents ru)
  | TaggedTrackerError => on unreg (ru_stats_tagged ru)
  | UntaggedTrackerError => on unreg (ru_stats_untagged ru)
  | TaggedNoHL => on (tag_nohardlinks cm) (nhl_stats_tagged nhl)
  | UntaggedNoHL => on (tag_nohardlinks cm) (nhl_stats_untagged nhl)
  | UpdatedShareLimits => on (share_limits cm) (sl_stats_tagged sl)
  | CleanedShareLimits =>
      on (share_limits cm) (sl_stats_deleted sl + sl_stats_deleted_contents sl)
  end.

(** What one run leaves behind, [loaded] being what [Config] answered. *)
Record RunEffect (g : Globals) (loaded : option Cfg) (p : Process)
  (o : Outcome unit) : Prop := {
  run_now : now p <= now (final o);
  run_args : args_config_file (final o) = args_config_file p;
  run_log :
    exists evs,
      log (final o) = log p ++ evs
      /\ runs_begun evs = [args_config_file p]
      /\ run_starts evs = [now p]
      /\ stages_built evs = stages_of loaded
      /\ sleeps evs = []
      /\ hooks_called evs
         = match loaded, halted o with
           | Some _, None => 1%nat
           | _, _ => 0%nat
           end;
  run_stats :
    forall k,
      counter k (stats (final o))
      = match loaded with
        | Some cfg =>
            match qbt cfg with
            | Some q => pipeline_delta cfg q k
            | None => 0
            end
        | None => 0
        end;
  run_jobs :
    if run g then jobs (final o) = jobs p /\ fresh_job (final o) = fresh_job p
    else
      match halted o with
      | None =>
          exists t d, jobs (final o) = [mkJob (fresh_job p) t d]
                      /\ fresh_job (final o) = S (fresh_job p)
      | Some (SysExit _) => jobs (final o) = []
      | Some (Uncaught _) => jobs (final o) = jobs p
      end
}.

(** [answer config_file] is a configuration. *)
Definition loads (answer : string -> option Cfg) (config_file : string) : bool :=
  match answer config_file with
  | Some _ => true
  | None => false
  end.

(** What the runs of [files], one after the other, leave behind. *)
Record LoopEffect (w : World) (g : Globals) (files : list string) (p : Process)
  (o : Outcome unit) : Prop := {
  loop_now : now p <= now (final o);
  loop_returns : can_rearm w g -> halted o = None;
  loop_log :
    exists evs,
      log (final o) = log p ++ evs
      /\ sleeps evs = []
      /\ Forall (fun t => now p <= t) (run_starts evs)
      /\ (forall f rest, files = f :: rest ->
          exists more, run_starts evs = now p :: more)
      /\ (halted o = None -> runs_begun evs = map Some files)
      /\ (halted o = None ->
          forall answer : string -> option Cfg,
            (forall f t, returned (Config w (Some f) t) = answer f) ->
            stages_built evs = flat_map (fun f => stages_of (answer f)) files
            /\ hooks_called evs = List.length (filter (loads answer) files));
  loop_jobs :
    run g = false -> halted o = None -> files <> [] ->
    exists id t d, jobs (final o) = [mkJob id t d];
  loop_jobs_nil : files = [] -> jobs (final o) = jobs p;
  loop_jobs_once : run g = true -> jobs (final o) = jobs p
}.

(** [p'] comes after [p]: the clock has not gone back, the log has only
    grown, and every run begun in between began no earlier than [p]. *)
Definition Later (p p' : Process) : Prop :=
  now p <= now p'
  /\ exists evs, log p' = log p ++ evs
                 /\ Forall (fun t => now p <= t) (run_starts evs).

(** The process when [Config] has answered. *)
Definition configured (w : World) (p : Process) : Process :=
  mkProcess (now p + Z.of_N (took (Config w (args_config_file p) (now p))))
    (jobs p) (fresh_job p) zero_stats (args_config_file p)
    (log p ++ [EvStartingRun (args_config_file p) (now p)]).

(** A run of [config_file] between two stretches of events. *)
Definition wrapped (w : World) (g : Globals) (pre post : list Event)
  (config_file : string) : M unit :=
  fun p =>
    match start w g (mkProcess (now p) (jobs p) (fresh_job p) (stats p)
                       (Some config_file) (log p ++ pre)) with
    | Ret _ p' =>
        Ret tt (mkProcess (now p') (jobs p') (fresh_job p') (stats p')
                  (args_config_file p') (log p' ++ post))
    | Stop h p' => Stop h p'
    end.

(** The world [w] with the signal arriving at [s], if at all. *)
Definition with_sigterm (s : option datetime) (w : World) : World :=
  mkWorld (croniter_accepts w) (croniter_get_next w) (glob w) (Config w)
    (sleep_overrun w) s.


(** One turn of the loop of [__main__] once the flag has been read. *)
Definition turn (w : World) (g : Globals) : M unit :=
  Schedule.run_pending (start_loop w g false) ;; sleep w 60.

(** ** Sample worlds *)

Module Sample.

Definition all_on : Commands :=
  mkCommands true true true true true true true true false.

Definition all_off : Commands :=
  mkCommands false false false false false false false false true.

Definition client : Qbt :=
  mkQbt (mkCall 1 2) (mkCall 1 3)
    (mkCall 2 (mkRemoveUnregistered 1 0 1 0))
    (mkCall 1 (mkReCheck 1 2))
    (mkCall 1 (mkTagNoHardLinks 4 0))
    (mkCall 1 (mkShareLimits 5 1 1))
    (mkCall 1 6).

Definition cfg_on : Cfg :=
  mkCfg all_on (Some client) "issue" "noHL" (mkCall 1 0) (mkCall 1 0)
    (mkCall 1 false).

Definition cfg_off : Cfg :=
  mkCfg all_off (Some client) "issue" "noHL" (mkCall 1 0) (mkCall 1 0)
    (mkCall 1 false).

(** [broken.yml] does not load, [idle.yml] has every command off, any
    other file has every command on. *)
Definition answer (config_file : string) : option Cfg :=
  if String.eqb config_file "broken.yml" then None
  else if String.eqb config_file "idle.yml" then Some cfg_off
  else Some cfg_on.

(** Loading takes a second; no signal ever arrives. *)
Definition world : World :=
  mkWorld Cron.accepts Cron.next (fun _ => [])
    (fun config_file _ =>
       mkCall 1000000
         match config_file with
         | Some f => answer f
         | None => None
         end)
    (fun _ => 0%N) None.

Definition every_30_minutes : Globals :=
  mkGlobals false (Py.Int 30) 0 ["config.yml"].

Definition every_5_minutes_cron : Globals :=
  mkGlobals false (Py.Str "*/5 * * * *") 0 ["config.yml"].


Definition argv (schedule : string) : Argv :=
  mkArgv false schedule "0" "config.yml".

End Sample.

(** ** Vocabulary of the further properties *)

(** Every count the stages of a configuration report is zero or more. *)
Definition counts_nonneg (cfg : Cfg) (q : Qbt) : Prop :=
  0 <= returned (Category q)
  /\ 0 <= returned (Tags q)
  /\ 0 <= ru_stats_deleted (returned (RemoveUnregistered q))
  /\ 0 <= ru_stats_deleted_contents (returned (RemoveUnregistered q))
  /\ 0 <= ru_stats_tagged (returned (RemoveUnregistered q))
  /\ 0 <= ru_stats_untagged (returned (RemoveUnregistered q))
  /\ 0 <= rc_stats_resumed (returned (ReCheck q))
  /\ 0 <= rc_stats_rechecked (returned (ReCheck q))
  /\ 0 <= nhl_stats_tagged (returned (TagNoHardLinks q))
  /\ 0 <= nhl_stats_untagged (returned (TagNoHardLinks q))
  /\ 0 <= sl_stats_tagged (returned (ShareLimits q))
  /\ 0 <= sl_stats_deleted (returned (ShareLimits q))
  /\ 0 <= sl_stats_deleted_contents (returned (ShareLimits q))
  /\ 0 <= returned (RemoveOrphaned q)
  /\ 0 <= returned (cleanup_dirs_recycle_bin cfg)
  /\ 0 <= returned (cleanup_dirs_orphaned_data cfg).

(** The two ways in which the end of a run halts the process: [croniter]
    finds no next occurrence, or [sch] is a string that is no cron
    expression. *)
Definition rearm_halt (w : World) (g : Globals) (h : Halt) : Prop :=
  run g = false
  /\ ((h = SysExit 1 /\ is_valid_cron_syntax w (sch g) = true)
      \/ (h = Uncaught "TypeError" /\ is_valid_cron_syntax w (sch g) = false
          /\ exists s, sch g = Py.Str s)).

(** The table holds one job, and it is a Job object made earlier. *)
Definition one_job (p : Process) : Prop :=
  exists j, jobs p = [j] /\ (job_id j < fresh_job p)%nat.

(** The process [p] with other counters. *)
Definition with_stats (st : Stats) (p : Process) : Process :=
  mkProcess (now p) (jobs p) (fresh_job p) st (args_config_file p) (log p).

(** The jobs a loop over some files leaves. *)
Definition renewed (p p' : Process) : Prop :=
  exists j, jobs p' = [j] /\ (fresh_job p <= job_id j < fresh_job p')%nat.

(** ** The range of [datetime] and [timedelta]

    [schedule_every_x_minutes] once more, with the limits Python puts on
    the two types: [timedelta(...)] raises [OverflowError] when its days
    are beyond 999999999 either way, and [datetime + timedelta] raises it
    when the sum is before [datetime.min] or after [datetime.max].  Times
    are counted from 1970-01-01 00:00:00, as everywhere in this file. *)

Module Ranged.

(** [datetime.min], 0001-01-01 00:00:00, which is 719162 days before 1970,
    and [datetime.max], 9999-12-31 23:59:59.999999, the last microsecond of
    the 2932897 days from 1970 on. *)
Definition datetime_min : datetime := - (719162 * 86400000000).
Definition datetime_max : datetime := 2932897 * 86400000000 - 1.

(** The constructor of [timedelta], from a number of microseconds: the
    days are the quotient by a day, rounded down. *)
Definition timedelta_of (microseconds : Z) : option timedelta :=
  let days := microseconds / 86400000000 in
  if (-999999999 <=? days) && (days <=? 999999999) then Some microseconds
  else None.

(** [t + d] on a [datetime] and a [timedelta]. *)
Definition datetime_add (t : datetime) (d : timedelta) : option datetime :=
  if (datetime_min <=? t + d) && (t + d <=? datetime_max) then Some (t + d)
  else None.

(** [None] is [OverflowError]. *)
Definition or_OverflowError {A : Type} (x : option A) : M A :=
  match x with
  | Some a => ret a
  | None => raise "OverflowError"
  end.

(** [schedule.every(n).minutes.do(start_loop)]: the period is
    [timedelta(minutes=n)], the job is due at [datetime.now() + period],
    and it joins the table once that time is known. *)
Definition every_minutes_do (n : Z) : M unit :=
  period <- or_OverflowError (timedelta_of (td_minutes n)) ;;
  t <- datetime_now ;;
  next_run <- or_OverflowError (datetime_add t period) ;;
  fun p => Ret tt (mkProcess (now p)
                     (jobs p ++ [mkJob (fresh_job p) next_run period])
                     (S (fresh_job p)) (stats p) (args_config_file p) (log p)).

Definition schedule_every_x_minutes (min : Z) : M datetime :=
  Schedule.clear ;;
  every_minutes_do min ;;
  t <- datetime_now ;;
  delta <- or_OverflowError (timedelta_of (td_minutes min)) ;;
  or_OverflowError (datetime_add t delta).

End Ranged.

(** ** The script under a [KeyboardInterrupt]

    The functions of [Section Program] are the script as long as no
    [KeyboardInterrupt] is raised in it.  Here are, once more, the ones in
    which time passes, for a process in which the interrupt is raised at
    [interrupt], if ever: it is raised in the call to a collaborator or in
    the [time.sleep] during which that moment comes, and cuts it short.
    [except Exception] and [except Failed] do not catch it (it is a
    [BaseException]); the handler of the [__main__] block does.  The
    functions in which no time passes are those of [Section Program]. *)

Module Interruptible.

Section Program.

Variable interrupt : option datetime.
Variable w : World.
Variable g : Globals.

(** Time passes for [d] microseconds, unless the interrupt comes first. *)
Definition elapse (d : N) : M unit :=
  fun p =>
    match interrupt with
    | Some t =>
        if (now p <=? t) && (t <? now p + Z.of_N d) then
          Stop (Uncaught "KeyboardInterrupt")
            (mkProcess t (jobs p) (fresh_job p) (stats p) (args_config_file p)
               (log p))
        else
          Ret tt (mkProcess (now p + Z.of_N d) (jobs p) (fresh_job p) (stats p)
                    (args_config_file p) (log p))
    | None =>
        Ret tt (mkProcess (now p + Z.of_N d) (jobs p) (fresh_job p) (stats p)
                  (args_config_file p) (log p))
    end.

Definition call {A : Type} (c : Call A) : M A :=
  elapse (took c) ;; ret (returned c).

Definition stage {A : Type} (s : Stage) (c : Call A) : M A :=
  t <- datetime_now ;;
  emit (EvStage s t) ;;
  call c.

Definition pipeline (cfg : Cfg) (qbit_manager : Qbt) : M unit :=
  when (cat_update (commands cfg))
    (n <- stage StCategory (Category qbit_manager) ;;
     stats_add Categorized n) ;;
  when (tag_update (commands cfg))
    (n <- stage StTags (Tags qbit_manager) ;;
     stats_add Tagged n) ;;
  when (rem_unregistered (commands cfg) || tag_tracker_error (commands cfg))
    (rem_unreg <- stage StRemoveUnregistered (RemoveUnregistered qbit_manager) ;;
     stats_add RemUnreg
       (ru_stats_deleted rem_unreg + ru_stats_deleted_contents rem_unreg) ;;
     stats_add Deleted (ru_stats_deleted rem_unreg) ;;
     stats_add DeletedContents (ru_stats_deleted_contents rem_unreg) ;;
     stats_add TaggedTrackerError (ru_stats_tagged rem_unreg) ;;
     stats_add UntaggedTrackerError (ru_stats_untagged rem_unreg) ;;
     stats_add Tagged (ru_stats_tagged rem_unreg)) ;;
  when (recheck (commands cfg))
    (recheck <- stage StReCheck (ReCheck qbit_manager) ;;
     stats_add Resumed (rc_stats_resumed recheck) ;;
     stats_add Rechecked (rc_stats_rechecked recheck)) ;;
  when (tag_nohardlinks (commands cfg))
    (no_hardlinks <- stage StTagNoHardLinks (TagNoHardLinks qbit_manager) ;;
     stats_add Tagged (nhl_stats_tagged no_hardlinks) ;;
     stats_add TaggedNoHL (nhl_stats_tagged no_hardlinks) ;;
     stats_add UntaggedNoHL (nhl_stats_untagged no_hardlinks)) ;;
  when (share_limits (commands cfg))
    (share_limits <- stage StShareLimits (ShareLimits qbit_manager) ;;
     stats_add Tagged (sl_stats_tagged share_limits) ;;
     stats_add UpdatedShareLimits (sl_stats_tagged share_limits) ;;
     stats_add Deleted (sl_stats_deleted share_limits) ;;
     stats_add DeletedContents (sl_stats_deleted_contents share_limits) ;;
     stats_add CleanedShareLimits
       (sl_stats_deleted share_limits + sl_stats_deleted_contents share_limits)) ;;
  when (rem_orphaned (commands cfg))
    (n <- stage StRemoveOrphaned (RemoveOrphaned qbit_manager) ;;
     stats_add Orphaned n) ;;
  n <- stage StRecycleBin (cleanup_dirs_recycle_bin cfg) ;;
  stats_add RecycleEmptied n ;;
  n <- stage StOrphanedData (cleanup_dirs_orphaned_data cfg) ;;
  stats_add OrphanedEmptied n.

Definition notify (cfg : Cfg) (start_time end_time : datetime) (run_time : Z)
  (next_run : option datetime) (stats_summary : list string) : M unit :=
  stats <- get_stats ;;
  emit (EvEndTimeHooks start_time end_time run_time next_run stats
          stats_summary) ;;
  failed <- call (end_time_hooks cfg) ;;
  when failed (emit EvWebhooksError).

Definition start : M unit :=
  start_time <- datetime_now ;;
  config_file <- get_args_config_file ;;
  emit (EvStartingRun config_file start_time) ;;
  set_stats zero_stats ;;
  loaded <- call (Config w config_file start_time) ;;
  match loaded with
  | None =>
      emit EvConfigFailed ;;
      finished_run w g start_time [] ;;
      ret tt
  | Some cfg =>
      match qbt cfg with
      | Some qbit_manager => pipeline cfg qbit_manager
      | None => ret tt
      end ;;
      stats <- get_stats ;;
      let stats_summary :=
        stats_summary_of (tracker_error_tag cfg) (nohardlinks_tag cfg) stats in
      '(end_time, run_time, next_run) <-
        finished_run w g start_time stats_summary ;;
      notify cfg start_time end_time run_time next_run stats_summary
  end.

Definition start_one (first_run : bool) (config_file : string) : M unit :=
  set_args_config_file config_file ;;
  emit (EvAddConfigHandler config_file) ;;
  when (negb first_run) (emit EvPrintLogo) ;;
  start ;;
  emit (EvRemoveConfigHandler config_file).

Definition start_loop (first_run : bool) : M unit :=
  match config_files g with
  | [config_file] =>
      set_args_config_file config_file ;;
      when (negb first_run) (emit EvPrintLogo) ;;
      start
  | files => for_each files (start_one first_run)
  end.

Definition sleep (secs : Z) : M unit :=
  if secs <? 0 then raise "ValueError"
  else
    emit (EvSleep secs) ;;
    t <- datetime_now ;;
    elapse (Z.to_N (td_seconds secs) + sleep_overrun w t).

(** One turn of the loop of [__main__] once the flag has been read. *)
Definition turn : M unit :=
  Schedule.run_pending (start_loop false) ;; sleep 60.

Fixpoint polling (ticks : nat) : M unit :=
  match ticks with
  | O => ret tt
  | S ticks' =>
      stop <- kill_now w ;;
      if stop then end_
      else
        Schedule.run_pending (start_loop false) ;;
        sleep 60 ;;
        polling ticks'
  end.

(** [try: body except KeyboardInterrupt: end()]. *)
Definition except_KeyboardInterrupt (body : M unit) : M unit :=
  fun p =>
    match body p with
    | Stop (Uncaught exception) p' =>
        if String.eqb exception "KeyboardInterrupt" then end_ p'
        else Stop (Uncaught exception) p'
    | o => o
    end.

(** The [__main__] block, with its handler. *)
Definition main (ticks : nat) : M unit :=
  emit EvPrintLogo ;;
  except_KeyboardInterrupt
    (if run g then start_loop true
     else
       (if is_valid_cron_syntax w (sch g) then
          schedule_from_cron w (sch g) ;; ret tt
        else
          every_sch_minutes g ;;
          when (negb (startupDelay g =? 0)) (sleep (startupDelay g)) ;;
          start_loop true) ;;
       polling ticks).

End Program.

(** The whole script: no time passes in the start-up checks. *)
Definition qbit_manage (interrupt : option datetime) (w : World) (argv : Argv)
  (ticks : nat) : M unit :=
  match resolve_config_files w (argv_configfiles argv) with
  | None => emit EvConfigError ;; sys_exit 1
  | Some config_files =>
      match check_schedule w (argv_schedule argv) with
      | None => emit EvInvalidSchedule ;; sys_exit 1
      | Some sch =>
          match check_startup_delay (argv_startupDelay argv) with
          | None => emit EvStartupDelayError ;; sys_exit 1
          | Some startupDelay =>
              main interrupt w
                (mkGlobals (argv_run argv) sch startupDelay config_files) ticks
          end
      end
  end.

End Interruptible.

(** ** Vocabulary of the properties on interrupts *)


(** The command was cut short by the interrupt. *)
Definition interrupted {A : Type} (o : Outcome A) : Prop :=
  exists p : Process, o = Stop (Uncaught "KeyboardInterrupt") p.

(** [o] is what the command does when an interrupt may come, [o'] what it
    does when none comes: the same, unless the interrupt cut it short. *)
Definition whole_or_cut {A : Type} (o o' : Outcome A) : Prop :=
  o = o' \/ interrupted o.

(** * Properties *)

(** ** Lists of events *)

Lemma stages_built_app (a b : list Event) :
  stages_built (a ++ b) = stages_built a ++ stages_built b.
Proof.
  induction a as [| e a IH]; [reflexivity |].
  destruct e; simpl; rewrite ?IH; reflexivity.
Qed.

Lemma runs_begun_app (a b : list Event) :
  runs_begun (a ++ b) = runs_begun a ++ runs_begun b.
Proof.
  induction a as [| e a IH]; [reflexivity |].
  destruct e; simpl; rewrite ?IH; reflexivity.
Qed.

Lemma run_starts_app (a b : list Event) :
  run_starts (a ++ b) = run_starts a ++ run_starts b.
Proof.
  induction a as [| e a IH]; [reflexivity |].
  destruct e; simpl; rewrite ?IH; reflexivity.
Qed.

Lemma sleeps_app (a b : list Event) :
  sleeps (a ++ b) = sleeps a ++ sleeps b.
Proof.
  induction a as [| e a IH]; [reflexivity |].
  destruct e; simpl; rewrite ?IH; reflexivity.
Qed.

Lemma hooks_called_app (a b : list Event) :
  hooks_called (a ++ b) = (hooks_called a + hooks_called b)%nat.
Proof.
  induction a as [| e a IH]; [reflexivity |].
  destruct e; simpl; rewrite ?IH; reflexivity.
Qed.

Lemma only_stages_app (a b : list Event) :
  only_stages a -> only_stages b -> only_stages (a ++ b).
Proof.
  unfold only_stages.
  intros (A1 & A2 & A3 & A4) (B1 & B2 & B3 & B4).
  rewrite runs_begun_app, run_starts_app, hooks_called_app, sleeps_app.
  rewrite A1, A2, A3, A4, B1, B2, B3, B4. repeat split.
Qed.

Lemma counter_add_to (c key : Counter) (n : Z) (s : Stats) :
  counter c (add_to key n s)
  = counter c s + (if Counter_eq_dec c key then n else 0).
Proof.
  destruct c; cbn [counter add_to added deleted deleted_contents resumed
    rechecked orphaned recycle_emptied orphaned_emptied tagged categorized
    rem_unreg tagged_tracker_error untagged_tracker_error tagged_noHL
    untagged_noHL updated_share_limits cleaned_share_limits];
  match goal with |- context [Counter_eq_dec ?a ?b] =>
    destruct (Counter_eq_dec a b) end; lia.
Qed.

Lemma adds_ret : adds (ret tt) [] (fun _ => 0).
Proof.
  intro p. exists 0%N, [], (stats p).
  split; [| split; [intro; lia | split; [reflexivity | repeat split]]].
  unfold ret. destruct p; cbn. now rewrite Z.add_0_r, app_nil_r.
Qed.

Lemma adds_stats_add (key : Counter) (n : Z) :
  adds (stats_add key n) [] (fun c => if Counter_eq_dec c key then n else 0).
Proof.
  intro p. exists 0%N, [], (add_to key n (stats p)).
  split; [| split; [intro; apply counter_add_to | split; [reflexivity | repeat split]]].
  unfold stats_add. cbn. now rewrite Z.add_0_r, app_nil_r.
Qed.

Lemma adds_seq (m1 m2 : M unit) (b1 b2 : list Stage) (d1 d2 : Counter -> Z) :
  adds m1 b1 d1 -> adds m2 b2 d2 ->
  adds (m1 ;; m2) (b1 ++ b2) (fun c => d1 c + d2 c).
Proof.
  intros H1 H2 p.
  destruct (H1 p) as (t1 & e1 & s1 & E1 & C1 & B1 & O1).
  destruct (H2 (mkProcess (now p + Z.of_N t1) (jobs p) (fresh_job p) s1
                  (args_config_file p) (log p ++ e1)))
    as (t2 & e2 & s2 & E2 & C2 & B2 & O2).
  cbn [now jobs fresh_job stats args_config_file log] in E2, C2.
  exists (t1 + t2)%N, (e1 ++ e2), s2.
  split; [| split; [| split]].
  - unfold bind. rewrite E1, E2.
    now rewrite N2Z.inj_add, Z.add_assoc, app_assoc.
  - intro c. rewrite C2, C1. lia.
  - rewrite stages_built_app. now rewrite B1, B2.
  - now apply only_stages_app.
Qed.

Lemma adds_stage {A : Type} (s : Stage) (c : Call A) (k : A -> M unit)
  (b : list Stage) (delta : Counter -> Z) :
  adds (k (returned c)) b delta ->
  adds (x <- stage s c ;; k x) (s :: b) delta.
Proof.
  intros H p.
  destruct (H (mkProcess (now p + Z.of_N (took c)) (jobs p) (fresh_job p)
                 (stats p) (args_config_file p) (log p ++ [EvStage s (now p)])))
    as (t & e & st & E & C & B & O).
  cbn [now jobs fresh_job stats args_config_file log] in E, C.
  exists (took c + t)%N, (EvStage s (now p) :: e), st.
  split; [| split; [exact C | split]].
  - unfold bind, stage, call, bind. cbn [datetime_now emit elapse ret now jobs
      fresh_job stats args_config_file log].
    rewrite E. now rewrite N2Z.inj_add, Z.add_assoc, <- app_assoc.
  - cbn. now rewrite B.
  - destruct O as (O1 & O2 & O3 & O4). repeat split; cbn; assumption.
Qed.

Lemma adds_when (cond : bool) (m : M unit) (b : list Stage) (delta : Counter -> Z) :
  adds m b delta ->
  adds (when cond m) (if cond then b else []) (fun c => on cond (delta c)).
Proof.
  intro H. destruct cond; cbn [when on].
  - exact H.
  - exact adds_ret.
Qed.

Lemma adds_ext (m : M unit) (b b' : list Stage) (d d' : Counter -> Z) :
  adds m b d -> b = b' -> (forall c, d c = d' c) -> adds m b' d'.
Proof.
  intros H -> Hd p. destruct (H p) as (t & e & st & E & C & B & O).
  exists t, e, st. repeat split; try assumption; try apply O.
  intro c. rewrite C. now rewrite Hd.
Qed.


Lemma pipeline_adds (cfg : Cfg) (q : Qbt) :
  adds (pipeline cfg q) (filter (built_when (commands cfg)) pipeline_order)
    (pipeline_delta cfg q).
Proof.
  unfold pipeline.
  eapply adds_ext.
  - repeat
      lazymatch goal with
      | |- adds (bind (stage _ _) _) _ _ => apply adds_stage; cbv beta
      | |- adds (bind _ _) _ _ => apply adds_seq
      | |- adds (when _ _) _ _ => apply adds_when
      | |- adds (stats_add _ _) _ _ => apply adds_stats_add
      end.
  - cbn [filter pipeline_order built_when].
    destruct (cat_update (commands cfg)), (tag_update (commands cfg)),
      (rem_unregistered (commands cfg) || tag_tracker_error (commands cfg)),
      (recheck (commands cfg)), (tag_nohardlinks (commands cfg)),
      (share_limits (commands cfg)), (rem_orphaned (commands cfg)); reflexivity.
  - intro c. unfold pipeline_delta, on.
    destruct c; cbn;
    destruct (cat_update (commands cfg)), (tag_update (commands cfg)),
      (rem_unregistered (commands cfg) || tag_tracker_error (commands cfg)),
      (recheck (commands cfg)), (tag_nohardlinks (commands cfg)),
      (share_limits (commands cfg)), (rem_orphaned (commands cfg)); lia.
Qed.

Section Runs.
Variable w : World.
Variable g : Globals.

Lemma schedule_every_x_minutes_eq (m : Z) (p : Process) :
  schedule_every_x_minutes m p
  = Ret (now p + td_minutes m)
      (mkProcess (now p)
         [mkJob (fresh_job p) (now p + td_minutes m) (td_minutes m)]
         (S (fresh_job p)) (stats p) (args_config_file p) (log p)).
Proof. reflexivity. Qed.

Lemma schedule_from_cron_eq (e : Py.value) (p : Process) :
  schedule_from_cron w e p
  = match croniter_next w e (now p) with
    | Some t =>
        Ret t (mkProcess (now p)
                 [mkJob (fresh_job p) (now p + (t - now p)) (t - now p)]
                 (S (fresh_job p)) (stats p) (args_config_file p) (log p))
    | None =>
        Stop (SysExit 1)
          (mkProcess (now p) [] (fresh_job p) (stats p) (args_config_file p)
             (log p ++ [EvInvalidCron]))
    end.
Proof.
  unfold schedule_from_cron, bind; cbn.
  destruct (croniter_next w e (now p)); reflexivity.
Qed.

Lemma finished_run_eq (start_time : datetime) (summary : list string) (p : Process) :
  finished_run w g start_time summary p
  = let run_time := (now p - start_time) / 1000000 in
    if run g then
      Ret (now p, run_time, None)
        (mkProcess (now p) (jobs p) (fresh_job p) (stats p) (args_config_file p)
           (log p ++ [EvFinishedRun (now p) run_time None summary]))
    else if is_valid_cron_syntax w (sch g) then
      match croniter_next w (sch g) (now p) with
      | Some t =>
          Ret (now p, run_time, Some t)
            (mkProcess (now p)
               [mkJob (fresh_job p) (now p + (t - now p)) (t - now p)]
               (S (fresh_job p)) (stats p) (args_config_file p)
               (log p ++ [EvFinishedRun (now p) run_time (Some t) summary]))
      | None =>
          Stop (SysExit 1)
            (mkProcess (now p) [] (fresh_job p) (stats p) (args_config_file p)
               (log p ++ [EvInvalidCron]))
      end
    else
      match sch g with
      | Py.Int m =>
          Ret (now p, run_time, Some (now p + td_minutes m))
            (mkProcess (now p)
               [mkJob (fresh_job p) (now p + td_minutes m) (td_minutes m)]
               (S (fresh_job p)) (stats p) (args_config_file p)
               (log p ++ [EvFinishedRun (now p) run_time
                            (Some (now p + td_minutes m)) summary]))
      | Py.Str _ => Stop (Uncaught "TypeError") p
      end.
Proof.
  unfold finished_run, calc_next_run, every_sch_minutes, bind.
  cbn [datetime_now].
  destruct (run g) eqn:Hrun.
  - reflexivity.
  - destruct (is_valid_cron_syntax w (sch g)).
    + rewrite schedule_from_cron_eq.
      destruct (croniter_next w (sch g) (now p)); reflexivity.
    + destruct (sch g); reflexivity.
Qed.







Lemma can_rearm_finished_run (start_time : datetime) (summary : list string)
  (p : Process) :
  can_rearm w g -> halted (finished_run w g start_time summary p) = None.
Proof.
  intros H. rewrite finished_run_eq. cbv zeta.
  destruct H as [H | [[H1 H2] | [H1 [m H2]]]].
  - now rewrite H.
  - destruct (run g); [reflexivity |]. rewrite H1.
    specialize (H2 (now p)).
    destruct (croniter_next w (sch g) (now p)); [reflexivity | congruence].
  - destruct (run g); [reflexivity |]. rewrite H1, H2. reflexivity.
Qed.


Lemma finished_run_value (start_time : datetime) (summary : list string)
  (p : Process) (v : datetime * Z * option datetime) (p' : Process) :
  finished_run w g start_time summary p = Ret v p' ->
  exists next, v = (now p, (now p - start_time) / 1000000, next).
Proof.
  rewrite finished_run_eq. cbv zeta.
  destruct (run g).
  - intros [= <- _]. eexists; reflexivity.
  - destruct (is_valid_cron_syntax w (sch g)).
    + destruct (croniter_next w (sch g) (now p)); [| discriminate].
      intros [= <- _]. eexists; reflexivity.
    + destruct (sch g); [| discriminate].
      intros [= <- _]. eexists; reflexivity.
Qed.

Lemma notify_eq (cfg : Cfg) (start_time end_time : datetime) (run_time : Z)
  (next : option datetime) (summary : list string) (p : Process) :
  notify cfg start_time end_time run_time next summary p
  = Ret tt
      (mkProcess (now p + Z.of_N (took (end_time_hooks cfg))) (jobs p)
         (fresh_job p) (stats p) (args_config_file p)
         (log p
          ++ EvEndTimeHooks start_time end_time run_time next (stats p) summary
             :: (if returned (end_time_hooks cfg) then [EvWebhooksError] else []))).
Proof.
  unfold notify, bind, get_stats, emit, call, bind, elapse, ret, when.
  cbn [now jobs fresh_job stats args_config_file log].
  destruct (returned (end_time_hooks cfg)).
  - unfold emit. cbn [now jobs fresh_job stats args_config_file log].
    now rewrite <- app_assoc.
  - reflexivity.
Qed.


Lemma start_failed_eq (p : Process) :
  returned (Config w (args_config_file p) (now p)) = None ->
  start w g p
  = (emit EvConfigFailed ;; finished_run w g (now p) [] ;; ret tt) (configured w p).
Proof.
  intro H. unfold start.
  unfold bind at 1 2 3 4 5.
  unfold datetime_now, get_args_config_file, emit at 1, set_stats, call.
  unfold bind at 1. unfold elapse, ret at 1.
  cbn [now jobs fresh_job stats args_config_file log].
  rewrite H. reflexivity.
Qed.

Lemma start_loaded_eq (p : Process) (cfg : Cfg) :
  returned (Config w (args_config_file p) (now p)) = Some cfg ->
  start w g p
  = (match qbt cfg with
     | Some qbit_manager => pipeline cfg qbit_manager
     | None => ret tt
     end ;;
     stats <- get_stats ;;
     let stats_summary :=
       stats_summary_of (tracker_error_tag cfg) (nohardlinks_tag cfg) stats in
     '(end_time, run_time, next_run) <- finished_run w g (now p) stats_summary ;;
     notify cfg (now p) end_time run_time next_run stats_summary) (configured w p).
Proof.
  intro H. unfold start.
  unfold bind at 1 2 3 4 5.
  unfold datetime_now, get_args_config_file, emit at 1, set_stats, call.
  unfold bind at 1. unfold elapse, ret at 1.
  cbn [now jobs fresh_job stats args_config_file log].
  rewrite H. reflexivity.
Qed.

Lemma counter_zero_stats (k : Counter) : counter k zero_stats = 0.
Proof. destruct k; reflexivity. Qed.

Ltac observe :=
  cbn [final halted now jobs fresh_job stats args_config_file log];
  rewrite <- ?app_assoc;
  cbn [app].

Ltac log_facts :=
  eexists; split; [reflexivity |];
  try change (?a :: ?b ++ ?c) with ([a] ++ b ++ c);
  rewrite ?runs_begun_app, ?run_starts_app, ?stages_built_app, ?sleeps_app,
    ?hooks_called_app;
  cbn [runs_begun run_starts stages_built sleeps hooks_called app Nat.add];
  repeat match goal with
         | H : ?f ?evs = _ |- context [?f ?evs] => rewrite H
         end;
  try match goal with
      | |- context [if ?b then _ else _] => destruct b
      end;
  cbn [runs_begun run_starts stages_built sleeps hooks_called app Nat.add];
  rewrite ?app_nil_r;
  repeat split.

Lemma start_effect (p : Process) :
  RunEffect g (returned (Config w (args_config_file p) (now p))) p (start w g p).
Proof.
  destruct (returned (Config w (args_config_file p) (now p))) as [cfg |] eqn:HC.
  - rewrite (start_loaded_eq p cfg HC).
    assert (Hpipe :
      exists d evs st,
        (match qbt cfg with
         | Some qbit_manager => pipeline cfg qbit_manager
         | None => ret tt
         end) (configured w p)
        = Ret tt (mkProcess (now (configured w p) + Z.of_N d) (jobs p)
                    (fresh_job p) st (args_config_file p)
                    (log (configured w p) ++ evs))
        /\ (forall k, counter k st
                      = match qbt cfg with
                        | Some q => pipeline_delta cfg q k
                        | None => 0
                        end)
        /\ stages_built evs = stages_of (Some cfg)
        /\ only_stages evs).
    { unfold stages_of. destruct (qbt cfg) as [q |].
      - destruct (pipeline_adds cfg q (configured w p))
          as (d & evs & st & E & C & B & O).
        exists d, evs, st. split; [exact E | split; [| split; assumption]].
        intro k. rewrite C. cbn [configured stats].
        now rewrite counter_zero_stats.
      - exists 0%N, [], zero_stats.
        split; [| split; [intro; apply counter_zero_stats | repeat split]].
        unfold ret, configured. cbn [now log].
        now rewrite Z.add_0_r, app_nil_r. }
    destruct Hpipe as (d & evs & st & E & C & B & (O1 & O2 & O3 & O4)).
    set (built := stages_of (Some cfg)) in *.
    unfold bind at 1. rewrite E.
    unfold bind at 1. unfold get_stats at 1. cbn [stats]. cbv zeta.
    unfold bind at 1.
    set (p2 := mkProcess _ _ _ _ _ _).
    set (sm := stats_summary_of _ _ _).
    pose proof (finished_run_eq (now p) sm p2) as FR. cbv zeta in FR.
    destruct (run g) eqn:Hrun.
    + rewrite FR. rewrite notify_eq. subst p2.
      unfold configured. observe.
      constructor; observe.
      * lia.
      * reflexivity.
      * log_facts.
      * exact C.
      * rewrite Hrun. split; reflexivity.
    + destruct (is_valid_cron_syntax w (sch g)).
      * destruct (croniter_next w (sch g) (now p2)) as [t |].
        -- rewrite FR. rewrite notify_eq. subst p2.
           unfold configured. observe.
           constructor; observe.
           ++ lia.
           ++ reflexivity.
           ++ log_facts.
           ++ exact C.
           ++ rewrite Hrun. eexists; eexists; split; reflexivity.
        -- rewrite FR. subst p2.
           unfold configured. observe.
           constructor; observe.
           ++ lia.
           ++ reflexivity.
           ++ log_facts.
           ++ exact C.
           ++ rewrite Hrun. reflexivity.
      * destruct (sch g) as [m | e].
        -- rewrite FR. rewrite notify_eq. subst p2.
           unfold configured. observe.
           constructor; observe.
           ++ lia.
           ++ reflexivity.
           ++ log_facts.
           ++ exact C.
           ++ rewrite Hrun. eexists; eexists; split; reflexivity.
        -- rewrite FR. subst p2.
           unfold configured. observe.
           constructor; observe.
           ++ lia.
           ++ reflexivity.
           ++ log_facts.
           ++ exact C.
           ++ rewrite Hrun. reflexivity.
  - rewrite (start_failed_eq p HC).
    unfold bind at 1. unfold emit at 1.
    unfold bind at 1.
    set (p2 := mkProcess _ _ _ _ _ _).
    pose proof (finished_run_eq (now p) [] p2) as FR. cbv zeta in FR.
    destruct (run g) eqn:Hrun;
      [| destruct (is_valid_cron_syntax w (sch g));
         [destruct (croniter_next w (sch g) (now p2)) | destruct (sch g)]];
      rewrite FR; subst p2; unfold configured, ret; observe;
      (constructor; observe;
       [ lia
       | reflexivity
       | eexists; split; [reflexivity | cbn; repeat split]
       | intro; apply counter_zero_stats
       | rewrite Hrun;
         first [ split; reflexivity
               | eexists; eexists; split; reflexivity
               | reflexivity ] ]).
Qed.

Lemma start_returns (p : Process) :
  can_rearm w g -> halted (start w g p) = None.
Proof.
  intro H.
  destruct (returned (Config w (args_config_file p) (now p))) as [cfg |] eqn:HC.
  - rewrite (start_loaded_eq p cfg HC).
    unfold bind at 1.
    destruct (match qbt cfg with
              | Some q => pipeline cfg q
              | None => ret tt
              end (configured w p)) as [[] p1 | h p1] eqn:E.
    + unfold bind at 1. unfold get_stats at 1. cbv zeta. unfold bind at 1.
      pose proof (can_rearm_finished_run (now p)
        (stats_summary_of (tracker_error_tag cfg) (nohardlinks_tag cfg) (stats p1))
        p1 H) as FR.
      destruct (finished_run w g (now p) _ p1) as [[[e r] n] p2 | h p2];
        [| discriminate].
      now rewrite notify_eq.
    + destruct (qbt cfg) as [q |].
      * destruct (pipeline_adds cfg q (configured w p)) as (d & evs & st & E' & _).
        rewrite E' in E. discriminate.
      * discriminate.
  - rewrite (start_failed_eq p HC).
    unfold bind at 1. unfold emit at 1. unfold bind at 1.
    match goal with |- context [finished_run w g ?a ?b ?c] =>
      pose proof (can_rearm_finished_run a b c H) as FR;
      destruct (finished_run w g a b c) as [v p2 | h p2]; [| discriminate]
    end.
    reflexivity.
Qed.



Lemma wrapped_effect (pre post : list Event) (f : string) (p : Process) :
  quiet pre -> quiet post -> LoopEffect w g [f] p (wrapped w g pre post f p).
Proof.
  intros (A0 & A1 & A2 & A3 & A4) (B0 & B1 & B2 & B3 & B4).
  unfold wrapped.
  set (pa := mkProcess _ _ _ _ _ _).
  pose proof (start_effect pa) as RE.
  pose proof (start_returns pa) as RR.
  destruct RE as [Hnow Hargs (evs & Hlog & Hruns & Hstarts & Hstages & Hsleeps & Hhooks)
                    Hstats Hjobs].
  subst pa. cbn [now jobs fresh_job stats args_config_file log] in *.
  destruct (start w g _) as [[] p' | h p'];
    cbn [final halted now jobs fresh_job stats args_config_file log] in *.
  - constructor; cbn [final halted now jobs fresh_job stats args_config_file log].
    + exact Hnow.
    + reflexivity.
    + exists (pre ++ evs ++ post).
      rewrite Hlog. rewrite <- !app_assoc. split; [reflexivity |].
      rewrite !sleeps_app, !run_starts_app, !runs_begun_app, !stages_built_app,
        !hooks_called_app.
      rewrite A0, A1, A2, A3, A4, B0, B1, B2, B3, B4, Hsleeps, Hstarts, Hruns,
        Hstages, Hhooks.
      cbn [app Nat.add]. rewrite ?app_nil_r.
      split; [reflexivity |].
      split; [constructor; [lia | constructor] |].
      split; [intros; eexists; reflexivity |].
      split; [reflexivity |].
      intros _ answer Hans. rewrite Hans.
      cbn [flat_map filter]. unfold loads. rewrite app_nil_r.
      split; [reflexivity |].
      destruct (answer f); reflexivity.
    + intros Hrun _ _. rewrite Hrun in Hjobs.
      destruct Hjobs as (t & d & Hj & _). now exists (fresh_job p), t, d.
    + discriminate.
    + intros Hrun. rewrite Hrun in Hjobs. apply Hjobs.
  - constructor; cbn [final halted now jobs fresh_job stats args_config_file log].
    + exact Hnow.
    + exact RR.
    + exists (pre ++ evs).
      rewrite Hlog. rewrite <- !app_assoc. split; [reflexivity |].
      rewrite !sleeps_app, !run_starts_app.
      rewrite A2, A4, Hsleeps, Hstarts. cbn [app].
      split; [reflexivity |].
      split; [constructor; [lia | constructor] |].
      split; [intros; eexists; reflexivity |].
      split; discriminate.
    + discriminate.
    + discriminate.
    + intros Hrun. rewrite Hrun in Hjobs. apply Hjobs.
Qed.

Lemma loop_effect_nil (p : Process) : LoopEffect w g [] p (Ret tt p).
Proof.
  constructor; cbn [final halted].
  - lia.
  - reflexivity.
  - exists []. rewrite app_nil_r.
    repeat split; try constructor; try discriminate.
  - intros _ _ H. now elim H.
  - reflexivity.
  - reflexivity.
Qed.

Lemma loop_effect_seq (f : string) (rest : list string) (m1 m2 : M unit)
  (p : Process) :
  LoopEffect w g [f] p (m1 p) ->
  (forall p', m1 p = Ret tt p' -> LoopEffect w g rest p' (m2 p')) ->
  LoopEffect w g (f :: rest) p ((m1 ;; m2) p).
Proof.
  intros H1 H2. unfold bind.
  destruct (m1 p) as [[] p1 | h p1] eqn:E1.
  - specialize (H2 p1 eq_refl).
    destruct H1 as [N1 R1 (e1 & L1 & S1 & F1 & G1 & B1 & C1) J1 Z1 K1].
    destruct H2 as [N2 R2 (e2 & L2 & S2 & F2 & G2 & B2 & C2) J2 Z2 K2].
    cbn [final halted] in *.
    constructor.
    + lia.
    + exact R2.
    + exists (e1 ++ e2). rewrite L2, L1, <- app_assoc.
      split; [reflexivity |].
      rewrite sleeps_app, run_starts_app, runs_begun_app, stages_built_app,
        hooks_called_app.
      rewrite S1, S2.
      split; [reflexivity |].
      split.
      { apply Forall_app. split; [exact F1 |].
        eapply Forall_impl; [| exact F2]. cbv beta. intros; lia. }
      split.
      { intros f' rest' _. destruct (G1 f [] eq_refl) as (more & ->).
        eexists. cbn [app]. reflexivity. }
      split.
      { intro Hh. rewrite (B1 eq_refl), (B2 Hh). reflexivity. }
      intros Hh answer Hans.
      destruct (C1 eq_refl answer Hans) as (-> & ->).
      destruct (C2 Hh answer Hans) as (-> & ->).
      cbn [flat_map filter]. rewrite app_nil_r.
      split; [reflexivity |].
      destruct (loads answer f); cbn [List.length app]; reflexivity.
    + intros Hrun Hh _.
      destruct rest as [| f2 rest2].
      * destruct (J1 Hrun eq_refl) as (id & t & d & Hj); [discriminate |].
        exists id, t, d. rewrite (Z2 eq_refl). exact Hj.
      * apply J2; [exact Hrun | exact Hh | discriminate].
    + discriminate.
    + intro Hrun. rewrite (K2 Hrun). exact (K1 Hrun).
  - destruct H1 as [N1 R1 (e1 & L1 & S1 & F1 & G1 & B1 & C1) J1 Z1 K1].
    cbn [final halted] in *.
    constructor; cbn [final halted].
    + exact N1.
    + exact R1.
    + exists e1. split; [exact L1 |]. split; [exact S1 |].
      split; [exact F1 |].
      split.
      { intros f' rest' _. exact (G1 f [] eq_refl). }
      split; discriminate.
    + discriminate.
    + discriminate.
    + exact K1.
Qed.

Lemma quiet_nil : quiet [].
Proof. repeat split. Qed.

Lemma quiet_handler_logo (first_run : bool) (f : string) :
  quiet (EvAddConfigHandler f :: (if negb first_run then [EvPrintLogo] else [])).
Proof. destruct first_run; repeat split. Qed.

Lemma quiet_logo (first_run : bool) :
  quiet (if negb first_run then [EvPrintLogo] else []).
Proof. destruct first_run; repeat split. Qed.

Lemma start_one_wrapped (first_run : bool) (f : string) (p : Process) :
  start_one w g first_run f p
  = wrapped w g (EvAddConfigHandler f :: (if negb first_run then [EvPrintLogo] else []))
      [EvRemoveConfigHandler f] f p.
Proof.
  unfold start_one, wrapped.
  unfold bind at 1 2 3. unfold set_args_config_file, emit at 1, when.
  cbn [now jobs fresh_job stats args_config_file log].
  destruct first_run; cbn [negb].
  - unfold ret at 1. cbn [app]. unfold bind.
    destruct (start w g _); reflexivity.
  - unfold emit at 1. cbn [now jobs fresh_job stats args_config_file log].
    rewrite <- app_assoc. cbn [app]. unfold bind.
    destruct (start w g _); reflexivity.
Qed.

Lemma single_wrapped (first_run : bool) (f : string) (p : Process) :
  (set_args_config_file f ;; when (negb first_run) (emit EvPrintLogo) ;;
   start w g) p
  = wrapped w g (if negb first_run then [EvPrintLogo] else []) [] f p.
Proof.
  unfold wrapped.
  unfold bind at 1 2. unfold set_args_config_file, when.
  cbn [now jobs fresh_job stats args_config_file log].
  destruct first_run; cbn [negb].
  - unfold ret at 1. rewrite app_nil_r.
    destruct (start w g _) as [[] [a b c d e l] | h p'];
      [| reflexivity].
    cbn [now jobs fresh_job stats args_config_file log].
    now rewrite app_nil_r.
  - unfold emit at 1. cbn [now jobs fresh_job stats args_config_file log].
    destruct (start w g _) as [[] [a b c d e l] | h p'];
      [| reflexivity].
    cbn [now jobs fresh_job stats args_config_file log].
    now rewrite app_nil_r.
Qed.

Lemma for_each_effect (first_run : bool) (files : list string) (p : Process) :
  LoopEffect w g files p (for_each files (start_one w g first_run) p).
Proof.
  revert p. induction files as [| f rest IH]; intro p.
  - apply loop_effect_nil.
  - cbn [for_each]. apply loop_effect_seq.
    + rewrite start_one_wrapped.
      apply wrapped_effect.
      * apply quiet_handler_logo.
      * repeat split.
    + intros p' _. apply IH.
Qed.

Lemma start_loop_effect (first_run : bool) (p : Process) :
  LoopEffect w g (config_files g) p (start_loop w g first_run p).
Proof.
  unfold start_loop.
  destruct (config_files g) as [| f [| f2 rest]].
  - apply (for_each_effect first_run []).
  - rewrite single_wrapped. apply wrapped_effect.
    + apply quiet_logo.
    + apply quiet_nil.
  - apply for_each_effect.
Qed.

Lemma later_refl (p : Process) : Later p p.
Proof.
  split; [lia |]. exists []. rewrite app_nil_r. split; [reflexivity | constructor].
Qed.

Lemma later_trans (p1 p2 p3 : Process) :
  Later p1 p2 -> Later p2 p3 -> Later p1 p3.
Proof.
  intros (N1 & e1 & L1 & F1) (N2 & e2 & L2 & F2).
  split; [lia |]. exists (e1 ++ e2).
  rewrite L2, L1, <- app_assoc. split; [reflexivity |].
  rewrite run_starts_app. apply Forall_app. split; [exact F1 |].
  eapply Forall_impl; [| exact F2]. cbv beta. intros; lia.
Qed.

Lemma start_loop_later (first_run : bool) (p : Process) :
  Later p (final (start_loop w g first_run p)).
Proof.
  destruct (start_loop_effect first_run p)
    as [N _ (evs & L & _ & F & _) _ _ _].
  split; [exact N |]. now exists evs.
Qed.

Lemma sleep_eq (secs : Z) (p : Process) :
  sleep w secs p
  = if secs <? 0 then Stop (Uncaught "ValueError") p
    else Ret tt (mkProcess
                   (now p + Z.of_N (Z.to_N (td_seconds secs)
                                    + sleep_overrun w (now p)))
                   (jobs p) (fresh_job p) (stats p) (args_config_file p)
                   (log p ++ [EvSleep secs])).
Proof. unfold sleep. destruct (secs <? 0); reflexivity. Qed.


Lemma bind_later {A B : Type} (m : M A) (k : A -> M B) (p : Process) :
  Later p (final (m p)) ->
  (forall a p', m p = Ret a p' -> Later p' (final (k a p'))) ->
  Later p (final ((x <- m ;; k x) p)).
Proof.
  intros H1 H2. unfold bind.
  destruct (m p) as [a p' | h p'] eqn:E; cbn [final] in *.
  - eapply later_trans; [exact H1 | now apply H2].
  - exact H1.
Qed.

Lemma reschedule_later (j : Job) (p : Process) :
  Later p (final (Schedule.reschedule j p)).
Proof.
  split; cbn; [lia |]. exists []. rewrite app_nil_r.
  split; [reflexivity | constructor].
Qed.

Lemma run_jobs_later (job_func : M unit) (runnable : list Job) :
  (forall p, Later p (final (job_func p))) ->
  forall p, Later p (final (Schedule.run_jobs job_func runnable p)).
Proof.
  intro H. induction runnable as [| j rest IH]; intro p.
  - apply later_refl.
  - cbn [Schedule.run_jobs].
    apply bind_later; [apply H |]. intros _ p1 _.
    apply bind_later; [apply reschedule_later |]. intros _ p2 _.
    apply IH.
Qed.

Lemma run_pending_later (job_func : M unit) :
  (forall p, Later p (final (job_func p))) ->
  forall p, Later p (final (Schedule.run_pending job_func p)).
Proof. intros H p. unfold Schedule.run_pending. now apply run_jobs_later. Qed.

End Runs.

(** ** The claims *)

Lemma string_append_assoc (a b c : string) :
  ((a ++ b) ++ c = a ++ b ++ c)%string.
Proof. induction a as [| x a IH]; simpl; [reflexivity | now rewrite IH]. Qed.

Lemma append_if_app (cond : bool) (line : string) (l : list string) :
  append_if cond line l = l ++ (if cond then [line] else []).
Proof. destruct cond; simpl; [reflexivity | now rewrite app_nil_r]. Qed.

Lemma source_order_complete (c : Counter) : In c source_order.
Proof. destruct c; simpl; tauto. Qed.

Lemma source_order_NoDup : NoDup source_order.
Proof.
  unfold source_order.
  repeat (constructor; [simpl; intuition discriminate |]).
  constructor.
Qed.

(** C1 (as amended).  The summary of a run holds one line per counter that
    is above zero and none for the others, each made of the counter's label
    and its count, in the order in which [start] tests the counters:
    categorized, tagged, unregistered-removed, tagged-tracker-error,
    untagged-tracker-error, added, resumed, rechecked, deleted,
    deleted-with-contents, orphaned, tagged-no-hardlinks,
    untagged-no-hardlinks, share-limits-updated, share-limits-cleaned,
    recycle-bin-emptied, orphaned-dir-emptied.  That order names each of the
    seventeen counters once.  With only [tagged = 3] and [deleted = 1] the
    summary is the two lines of the specification's example. *)
Theorem summary_lists_counters_in_source_order
  (tracker_error_tag nohardlinks_tag : string) (stats : Stats) :
  stats_summary_of tracker_error_tag nohardlinks_tag stats
  = summary_in_order source_order tracker_error_tag nohardlinks_tag stats
  /\ NoDup source_order
  /\ (forall c : Counter, In c source_order)
  /\ stats_summary_of "issue" "noHL" (mkStats 0 1 0 0 0 0 0 0 3 0 0 0 0 0 0 0 0)
     = ["Total Torrents Tagged: 3"; "Total Torrents Deleted: 1"].
Proof.
  split; [| split; [exact source_order_NoDup | split; [exact source_order_complete | reflexivity]]].
  unfold stats_summary_of.
  rewrite !append_if_app.
  unfold summary_in_order, source_order, summary_line, summary_label, counter.
  cbn [flat_map app].
  rewrite <- !app_assoc.
  cbn [app].
  rewrite ?app_nil_r.
  repeat f_equal; now rewrite !string_append_assoc.
Qed.

(** C1, counterexample.  After a run that removed one unregistered torrent
    and tagged one tracker error, the summary names the removal before the
    tracker-error tag; the documented order has them the other way round. *)
Lemma summary_differs_from_documented_order :
  stats_summary_of "issue" "noHL" (mkStats 0 1 0 0 0 0 0 0 1 0 1 1 0 0 0 0 0)
  <> documented_summary "issue" "noHL" (mkStats 0 1 0 0 0 0 0 0 1 0 1 1 0 0 0 0 0).
Proof. vm_compute. discriminate. Qed.

(** ** C2 *)

Lemma check_schedule_none (w : World) (raw : string) :
  check_schedule w raw = None
  <-> Py.int raw = None /\ croniter_accepts w raw = false.
Proof.
  unfold check_schedule, is_valid_cron_syntax. cbn [Py.str].
  destruct (Py.int raw) as [n |].
  - split; [discriminate | intros [H _]; discriminate].
  - destruct (croniter_accepts w raw); cbn [negb].
    + split; [discriminate | intros [_ H]; discriminate].
    + split; [now split | reflexivity].
Qed.

(** C2 (as amended).  The schedule check rejects exactly the strings that
    [int()] does not read and [croniter] does not accept; on such a string
    the script exits with code 1 before any run begins or any stage is
    built. *)
Theorem invalid_schedule_exits_before_any_run
  (w : World) (argv : Argv) (ticks : nat) (t0 : datetime) :
  (check_schedule w (argv_schedule argv) = None
   <-> Py.int (argv_schedule argv) = None
       /\ croniter_accepts w (argv_schedule argv) = false)
  /\ (check_schedule w (argv_schedule argv) = None ->
      halted (qbit_manage w argv ticks (boot t0)) = Some (SysExit 1)
      /\ runs_begun (log (final (qbit_manage w argv ticks (boot t0)))) = []
      /\ stages_built (log (final (qbit_manage w argv ticks (boot t0)))) = []).
Proof.
  split; [apply check_schedule_none |].
  intro H. unfold qbit_manage.
  destruct (resolve_config_files w (argv_configfiles argv)).
  - rewrite H. repeat split.
  - repeat split.
Qed.

(** C2, counterexample.  ["0"] is no positive integer and no cron
    expression, yet the script does not exit: it goes on to a run. *)
Lemma schedule_zero_is_accepted :
  (is_positive_integer "0" = false /\ croniter_accepts Sample.world "0" = false)
  /\ halted (qbit_manage Sample.world (Sample.argv "0") 0 (boot 0)) = None
  /\ runs_begun (log (final (qbit_manage Sample.world (Sample.argv "0") 0 (boot 0))))
     = [Some "config.yml"].
Proof. vm_compute. repeat split. Qed.

(** C2 at ["every day"]. *)
Lemma invalid_schedule_witness :
  check_schedule Sample.world "every day" = None
  /\ halted (qbit_manage Sample.world (Sample.argv "every day") 3 (boot 0))
     = Some (SysExit 1).
Proof.
  split; [reflexivity |].
  apply (proj2 (invalid_schedule_exits_before_any_run Sample.world
                  (Sample.argv "every day") 3 0)).
  reflexivity.
Defined.

(** ** C3 *)

(** C3 (as amended).  When the configuration loads and its client handle
    is there, a run builds, in the order of the pipeline, the stages whose
    test in [start] holds: category, tags, recheck, no-hard-links, share
    limits and orphaned files each on its own command, unregistered removal
    on either of its two commands, and the two clean-up stages always.  When
    the configuration does not load or the handle is missing, no stage is
    built. *)
Theorem stages_built_follow_the_tests_of_start (w : World) (g : Globals)
  (p : Process) :
  stages_built (log (final (start w g p)))
  = stages_built (log p)
    ++ match returned (Config w (args_config_file p) (now p)) with
       | Some cfg =>
           match qbt cfg with
           | Some _ => filter (built_when (commands cfg)) pipeline_order
           | None => []
           end
       | None => []
       end.
Proof.
  destruct (start_effect w g p) as [_ _ (evs & L & _ & _ & S & _) _ _].
  rewrite L, stages_built_app, S. reflexivity.
Qed.

(** C3, counterexample.  With every command off and clean-up skipped, no
    stage has its capability enabled, yet the run calls both clean-up
    stages. *)
Lemma cleanup_is_built_though_skipped :
  filter (capability (commands Sample.cfg_off)) pipeline_order = []
  /\ stages_built
       (log (final (start Sample.world Sample.every_30_minutes
                      (mkProcess 0 [] 0 zero_stats (Some "idle.yml") []))))
     = [StRecycleBin; StOrphanedData].
Proof. vm_compute. split; reflexivity. Qed.

(** ** C10 *)

(** C10.  In a run that reaches the pipeline, [tagged] ends as the sum of
    what the tag, unregistered-removal, no-hard-links and share-limits stages
    tagged (a stage not built counting zero), the last three also standing in
    their own counters, and [rem_unreg] ends as that stage's deleted plus
    deleted-with-contents counts. *)
Theorem tagged_adds_up_four_stages (w : World) (g : Globals) (p : Process)
  (cfg : Cfg) (q : Qbt) :
  returned (Config w (args_config_file p) (now p)) = Some cfg ->
  qbt cfg = Some q ->
  let unreg := rem_unregistered (commands cfg) || tag_tracker_error (commands cfg) in
  let s := stats (final (start w g p)) in
  tagged s
  = on (tag_update (commands cfg)) (returned (Tags q))
    + on unreg (ru_stats_tagged (returned (RemoveUnregistered q)))
    + on (tag_nohardlinks (commands cfg))
        (nhl_stats_tagged (returned (TagNoHardLinks q)))
    + on (share_limits (commands cfg))
        (sl_stats_tagged (returned (ShareLimits q)))
  /\ tagged_tracker_error s
     = on unreg (ru_stats_tagged (returned (RemoveUnregistered q)))
  /\ tagged_noHL s
     = on (tag_nohardlinks (commands cfg))
         (nhl_stats_tagged (returned (TagNoHardLinks q)))
  /\ updated_share_limits s
     = on (share_limits (commands cfg))
         (sl_stats_tagged (returned (ShareLimits q)))
  /\ rem_unreg s
     = on unreg (ru_stats_deleted (returned (RemoveUnregistered q))
                 + ru_stats_deleted_contents (returned (RemoveUnregistered q))).
Proof.
  intros HC HQ unreg s.
  destruct (start_effect w g p) as [_ _ _ S _].
  rewrite HC, HQ in S.
  repeat split.
  - exact (S Tagged).
  - exact (S TaggedTrackerError).
  - exact (S TaggedNoHL).
  - exact (S UpdatedShareLimits).
  - exact (S RemUnreg).
Qed.

(** C10 at the sample configuration with every command on. *)
Lemma tagged_adds_up_witness :
  tagged (stats (final (start Sample.world Sample.every_30_minutes
                          (mkProcess 0 [] 0 zero_stats (Some "config.yml") []))))
  = 3 + 1 + 4 + 5.
Proof.
  exact (proj1 (tagged_adds_up_four_stages Sample.world Sample.every_30_minutes
                  (mkProcess 0 [] 0 zero_stats (Some "config.yml") [])
                  Sample.cfg_on Sample.client eq_refl eq_refl)).
Defined.

(** ** C6 *)

Lemma minutes_in_days (m : Z) : m * 60000000 / 86400000000 = m / 1440.
Proof.
  change 86400000000 with (1440 * 60000000).
  now rewrite Z.div_mul_cancel_r.
Qed.

Lemma timedelta_of_minutes (m : Z) :
  Ranged.timedelta_of (td_minutes m)
  = if (-999999999 <=? m / 1440) && (m / 1440 <=? 999999999)
    then Some (m * 60000000) else None.
Proof.
  unfold Ranged.timedelta_of, td_minutes. cbv zeta.
  now rewrite minutes_in_days.
Qed.

Lemma ranged_every_x_minutes_eq (m : Z) (p : Process) :
  Ranged.schedule_every_x_minutes m p
  = if (-999999999 <=? m / 1440) && (m / 1440 <=? 999999999)
       && (Ranged.datetime_min <=? now p + m * 60000000)
       && (now p + m * 60000000 <=? Ranged.datetime_max)
    then Ret (now p + m * 60000000)
           (mkProcess (now p)
              [mkJob (fresh_job p) (now p + m * 60000000) (m * 60000000)]
              (S (fresh_job p)) (stats p) (args_config_file p) (log p))
    else Stop (Uncaught "OverflowError")
           (mkProcess (now p) [] (fresh_job p) (stats p) (args_config_file p)
              (log p)).
Proof.
  unfold Ranged.schedule_every_x_minutes, Ranged.every_minutes_do.
  rewrite timedelta_of_minutes.
  unfold bind, Schedule.clear, datetime_now, Ranged.datetime_add.
  cbn [now jobs fresh_job stats args_config_file log].
  destruct ((-999999999 <=? m / 1440) && (m / 1440 <=? 999999999));
    [| reflexivity].
  destruct (Ranged.datetime_min <=? now p + m * 60000000) eqn:Lo;
    cbn [andb Ranged.or_OverflowError ret raise now jobs fresh_job stats
         args_config_file log app]; rewrite ?Lo; [| reflexivity].
  destruct (now p + m * 60000000 <=? Ranged.datetime_max) eqn:Hi;
    cbn [andb Ranged.or_OverflowError ret raise now jobs fresh_job stats
         args_config_file log app]; rewrite ?Lo, ?Hi; reflexivity.
Qed.

(** C6.  For every [m] of 1 or more and every time such that [m] minutes
    are at most 999999999 days and now plus [m] minutes lies between
    [datetime.min] and [datetime.max], [schedule_every_x_minutes] answers
    now plus [m] minutes and leaves in the table exactly one job, due at
    that time, with a period of [m] minutes; nothing else changes, and the
    function of [Section Program], which has no range, does the same.
    Outside that range it raises [OverflowError] and leaves the table
    empty.  With the job in the table, [run_pending] does nothing before
    its time and runs it at any time from then on. *)
Theorem every_x_minutes_is_due_m_minutes_from_now_in_range (m : Z)
  (p : Process) :
  1 <= m ->
  let due := now p + m * 60000000 in
  let j := mkJob (fresh_job p) due (m * 60000000) in
  (m / 1440 <= 999999999 ->
   Ranged.datetime_min <= due <= Ranged.datetime_max ->
   Ranged.schedule_every_x_minutes m p
   = Ret due
       (mkProcess (now p) [j] (S (fresh_job p)) (stats p) (args_config_file p)
          (log p))
   /\ Ranged.schedule_every_x_minutes m p = schedule_every_x_minutes m p)
  /\ (~ (m / 1440 <= 999999999
         /\ Ranged.datetime_min <= due <= Ranged.datetime_max) ->
      Ranged.schedule_every_x_minutes m p
      = Stop (Uncaught "OverflowError")
          (mkProcess (now p) [] (fresh_job p) (stats p) (args_config_file p)
             (log p)))
  /\ forall (job_func : M unit) (q : Process),
       jobs q = [j] ->
       (now q < due -> Schedule.run_pending job_func q = Ret tt q)
       /\ (due <= now q ->
           Schedule.run_pending job_func q
           = (job_func ;; Schedule.reschedule j ;; ret tt) q).
Proof.
  intros Hm due j.
  assert (D0 : -999999999 <= m / 1440).
  { pose proof (Z.div_pos m 1440). lia. }
  split; [| split].
  - intros D R. rewrite ranged_every_x_minutes_eq. fold due.
    destruct (Z.leb_spec (-999999999) (m / 1440)); [| lia].
    destruct (Z.leb_spec (m / 1440) 999999999); [| lia].
    destruct (Z.leb_spec Ranged.datetime_min due); [| lia].
    destruct (Z.leb_spec due Ranged.datetime_max); [| lia].
    split; reflexivity.
  - intro N. rewrite ranged_every_x_minutes_eq. fold due.
    destruct (Z.leb_spec (-999999999) (m / 1440)); [| reflexivity].
    destruct (Z.leb_spec (m / 1440) 999999999); [| reflexivity].
    destruct (Z.leb_spec Ranged.datetime_min due); [| reflexivity].
    destruct (Z.leb_spec due Ranged.datetime_max); [| reflexivity].
    elim N. lia.
  - intros job_func q Hq. unfold Schedule.run_pending. rewrite Hq.
    unfold filter, Schedule.should_run. subst j. cbn [next_run].
    split; intro H.
    + destruct (Z.leb_spec due (now q)); [lia | reflexivity].
    + destruct (Z.leb_spec due (now q)); [reflexivity | lia].
Qed.

(** C6 on a schedule of 30 minutes, set on 2026-11-04 at 10:01. *)
Lemma every_30_minutes_in_range_witness :
  Ranged.schedule_every_x_minutes 30 (boot 1793786460000000)
  = Ret 1793788260000000
      (mkProcess 1793786460000000
         [mkJob 0 1793788260000000 1800000000] 1 zero_stats None []).
Proof.
  refine (proj1 (proj1 (every_x_minutes_is_due_m_minutes_from_now_in_range 30
                          (boot 1793786460000000) _) _ _)).
  - lia.
  - vm_compute. discriminate.
  - vm_compute. split; discriminate.
Defined.

(** A schedule of 5000000000 minutes passes the start-up check, and
    [schedule_every_x_minutes] answers no time for it: now plus that many
    minutes is past the year 9999, and [schedule.every(...).minutes.do]
    raises [OverflowError] with the table already cleared. *)
Lemma five_billion_minutes_overflow :
  1 <= 5000000000
  /\ check_schedule Sample.world "5000000000" = Some (Py.Int 5000000000)
  /\ Ranged.schedule_every_x_minutes 5000000000 (boot 1793786460000000)
     = Stop (Uncaught "OverflowError") (boot 1793786460000000).
Proof. vm_compute. repeat split. discriminate. Qed.

(** ** C4 *)



(** ** C5 *)




(** ** C7 *)

Lemma first_in_none (q : Z -> bool) (n : positive) :
  forall start,
    Cron.first_in q start n = None ->
    forall y, start <= y < start + Zpos n -> q y = false.
Proof.
  induction n as [n IH | n IH |]; intros start; cbn [Cron.first_in].
  - destruct (Cron.first_in q start n) eqn:E1; [discriminate |].
    destruct (Cron.first_in q (start + Z.pos n) n) eqn:E2; [discriminate |].
    destruct (q (start + Z.pos n~0)) eqn:E3; [discriminate |].
    intros _ y Hy.
    destruct (Z_lt_le_dec y (start + Z.pos n)).
    + apply (IH _ E1); lia.
    + destruct (Z_lt_le_dec y (start + Z.pos n~0)).
      * apply (IH _ E2); lia.
      * replace y with (start + Z.pos n~0) by lia. exact E3.
  - destruct (Cron.first_in q start n) eqn:E1; [discriminate |].
    intros E2 y Hy.
    destruct (Z_lt_le_dec y (start + Z.pos n)).
    + apply (IH _ E1); lia.
    + apply (IH _ E2); lia.
  - destruct (q start) eqn:E; [discriminate |].
    intros _ y Hy. replace y with start by lia. exact E.
Qed.

Lemma first_in_some (q : Z -> bool) (n : positive) :
  forall start z,
    Cron.first_in q start n = Some z ->
    start <= z < start + Zpos n /\ q z = true
    /\ forall y, start <= y < z -> q y = false.
Proof.
  induction n as [n IH | n IH |]; intros start z; cbn [Cron.first_in].
  - destruct (Cron.first_in q start n) as [a |] eqn:E1.
    + intros [= <-]. destruct (IH _ _ E1) as (R & Q & M).
      repeat split; try lia; assumption.
    + destruct (Cron.first_in q (start + Z.pos n) n) as [b |] eqn:E2.
      * intros [= <-]. destruct (IH _ _ E2) as (R & Q & M).
        repeat split; try lia; try assumption.
        intros y Hy.
        destruct (Z_lt_le_dec y (start + Z.pos n)).
        -- apply (first_in_none _ _ _ E1); lia.
        -- apply M; lia.
      * destruct (q (start + Z.pos n~0)) eqn:E3; [| discriminate].
        intros [= <-]. repeat split; try lia; try assumption.
        intros y Hy.
        destruct (Z_lt_le_dec y (start + Z.pos n)).
        -- apply (first_in_none _ _ _ E1); lia.
        -- apply (first_in_none _ _ _ E2); lia.
  - destruct (Cron.first_in q start n) as [a |] eqn:E1.
    + intros [= <-]. destruct (IH _ _ E1) as (R & Q & M).
      repeat split; try lia; assumption.
    + intro E2. destruct (IH _ _ E2) as (R & Q & M).
      repeat split; try lia; try assumption.
      intros y Hy.
      destruct (Z_lt_le_dec y (start + Z.pos n)).
      * apply (first_in_none _ _ _ E1); lia.
      * apply M; lia.
  - destruct (q start) eqn:E; [| discriminate].
    intros [= <-]. repeat split; try lia; try assumption.
Qed.

Lemma minute_after (base k : Z) :
  base < k * Cron.usec_per_minute <-> base / Cron.usec_per_minute + 1 <= k.
Proof.
  unfold Cron.usec_per_minute.
  pose proof (Z.div_mod base 60000000 ltac:(lia)) as D.
  pose proof (Z.mod_pos_bound base 60000000 ltac:(lia)) as B.
  split; intro H; nia.
Qed.

Lemma minute_lt (u k : Z) :
  u < k * Cron.usec_per_minute -> u / Cron.usec_per_minute < k.
Proof.
  unfold Cron.usec_per_minute. intro H.
  pose proof (Z.div_mod u 60000000 ltac:(lia)) as D.
  pose proof (Z.mod_pos_bound u 60000000 ltac:(lia)) as B.
  nia.
Qed.

Lemma minute_le (u k : Z) :
  u <= k * Cron.usec_per_minute -> u / Cron.usec_per_minute <= k.
Proof.
  unfold Cron.usec_per_minute. intro H.
  pose proof (Z.div_mod u 60000000 ltac:(lia)) as D.
  pose proof (Z.mod_pos_bound u 60000000 ltac:(lia)) as B.
  nia.
Qed.

Lemma matches_whole_minute (e : Cron.Expr) (u : datetime) :
  Cron.matches e u = true ->
  u = (u / Cron.usec_per_minute) * Cron.usec_per_minute.
Proof.
  unfold Cron.matches. rewrite !andb_true_iff.
  intros ((((H & _) & _) & _) & _).
  apply Z.eqb_eq in H. unfold Cron.usec_per_minute in *.
  pose proof (Z.div_mod u 60000000 ltac:(lia)). lia.
Qed.

Lemma get_next_some (e : Cron.Expr) (base t : datetime) :
  Cron.get_next e base = Some t ->
  base < t
  /\ t <= (base / Cron.usec_per_minute + Zpos Cron.horizon) * Cron.usec_per_minute
  /\ Cron.matches e t = true
  /\ forall u, base < u < t -> Cron.matches e u = false.
Proof.
  unfold Cron.get_next.
  destruct (Cron.first_in _ _ _) as [k |] eqn:E; [| discriminate].
  intros [= <-].
  destruct (first_in_some _ _ _ _ E) as (R & Q & M).
  split; [apply minute_after; lia |].
  split; [apply Z.mul_le_mono_nonneg_r; [unfold Cron.usec_per_minute |]; lia |].
  split; [exact Q |].
  intros u Hu.
  destruct (Cron.matches e u) eqn:Hm; [| reflexivity].
  pose proof (matches_whole_minute e u Hm) as W.
  rewrite W in Hm. rewrite <- Hm. apply M.
  split.
  - apply minute_after. lia.
  - apply minute_lt. lia.
Qed.

Lemma get_next_none (e : Cron.Expr) (base : datetime) :
  Cron.get_next e base = None ->
  forall u,
    base < u <= (base / Cron.usec_per_minute + Zpos Cron.horizon) * Cron.usec_per_minute ->
    Cron.matches e u = false.
Proof.
  unfold Cron.get_next.
  destruct (Cron.first_in _ _ _) as [k |] eqn:E; [discriminate |].
  intros _ u Hu.
  destruct (Cron.matches e u) eqn:Hm; [| reflexivity].
  pose proof (matches_whole_minute e u Hm) as W.
  rewrite W in Hm. rewrite <- Hm.
  apply (first_in_none _ _ _ E).
  split.
  - apply minute_after. lia.
  - pose proof (minute_le u _ (proj2 Hu)). lia.
Qed.

(** C7.  With the cron grammar and next occurrence modelled from the
    specification: for every expression the grammar accepts and every time,
    the next run [schedule_from_cron] answers is later than now, is a whole
    minute that satisfies the minute, hour and month fields and the day rule
    (day of month and day of week joined by OR when both are restricted), is
    the first such time after now, and is when the one job of the table is
    due.  It answers whenever an occurrence lies within the horizon, and
    exits with code 1 when none does. *)
Theorem cron_next_run_is_the_next_occurrence (w : World) (s : string)
  (e : Cron.Expr) (p : Process) :
  Cron.parse s = Some e ->
  let o := schedule_from_cron (Cron.install w) (Py.Str s) p in
  let limit := (now p / 60000000 + 26352000) * 60000000 in
  (forall t p', o = Ret t p' ->
     now p < t
     /\ (t mod 60000000 = 0
         /\ Cron.field_matches 0 (Cron.minute e) (Cron.minute_of t) = true
         /\ Cron.field_matches 0 (Cron.hour e) (Cron.hour_of t) = true
         /\ Cron.field_matches 1 (Cron.month e) (Cron.month_of t) = true
         /\ Cron.day_matches e t = true)
     /\ (forall u, now p < u < t -> Cron.matches e u = false)
     /\ jobs p' = [mkJob (fresh_job p) t (t - now p)])
  /\ ((exists u, now p < u <= limit /\ Cron.matches e u = true) ->
      exists t p', o = Ret t p')
  /\ ((forall u, now p < u <= limit -> Cron.matches e u = false) ->
      halted o = Some (SysExit 1)).
Proof.
  intros Hparse o limit.
  assert (Hnext : croniter_next (Cron.install w) (Py.Str s) (now p)
                  = Cron.get_next e (now p)).
  { unfold croniter_next, Cron.install. cbn [croniter_accepts croniter_get_next].
    unfold Cron.accepts, Cron.next. now rewrite Hparse. }
  assert (Ho : o = match Cron.get_next e (now p) with
                   | Some t =>
                       Ret t (mkProcess (now p)
                                [mkJob (fresh_job p) (now p + (t - now p)) (t - now p)]
                                (S (fresh_job p)) (stats p) (args_config_file p)
                                (log p))
                   | None =>
                       Stop (SysExit 1)
                         (mkProcess (now p) [] (fresh_job p) (stats p)
                            (args_config_file p) (log p ++ [EvInvalidCron]))
                   end).
  { subst o. rewrite schedule_from_cron_eq. now rewrite Hnext. }
  split; [| split].
  - intros t p' E. rewrite Ho in E.
    destruct (Cron.get_next e (now p)) as [t' |] eqn:G; [| discriminate].
    injection E as <- <-.
    destruct (get_next_some e (now p) t' G) as (A & _ & B & C).
    split; [exact A |]. split; [| split; [exact C |]].
    + unfold Cron.matches in B. rewrite !andb_true_iff in B.
      destruct B as ((((B1 & B2) & B3) & B4) & B5).
      apply Z.eqb_eq in B1. repeat split; assumption.
    + cbn [jobs]. now replace (now p + (t' - now p)) with t' by lia.
  - intros (u & Hu & Hm). rewrite Ho.
    destruct (Cron.get_next e (now p)) as [t' |] eqn:G.
    + eexists; eexists; reflexivity.
    + rewrite (get_next_none e (now p) G u Hu) in Hm. discriminate.
  - intros Hnone. rewrite Ho.
    destruct (Cron.get_next e (now p)) as [t' |] eqn:G; [| reflexivity].
    destruct (get_next_some e (now p) t' G) as (A & A' & B & _).
    rewrite (Hnone t' (conj A A')) in B. discriminate.
Qed.

(** C7 at ["*/5 * * * *"], five microseconds past 10:01. *)
Lemma every_five_minutes_witness :
  1793786460000005 < 1793786700000000
  /\ Cron.day_matches
       (Cron.mkExpr [Cron.Star 5] [Cron.Star 1] [Cron.Star 1] [Cron.Star 1]
          [Cron.Star 1])
       1793786700000000 = true.
Proof.
  pose proof (cron_next_run_is_the_next_occurrence Sample.world "*/5 * * * *"
                (Cron.mkExpr [Cron.Star 5] [Cron.Star 1] [Cron.Star 1]
                   [Cron.Star 1] [Cron.Star 1])
                (boot 1793786460000005) eq_refl) as H.
  cbv zeta in H. destruct H as (H & _).
  assert (E : schedule_from_cron (Cron.install Sample.world)
                (Py.Str "*/5 * * * *") (boot 1793786460000005)
              = Ret 1793786700000000
                  (mkProcess 1793786460000005
                     [mkJob 0 1793786700000000 239999995] 1 zero_stats None []))
    by (vm_compute; reflexivity).
  destruct (H _ _ E) as (A & (_ & _ & _ & _ & B) & _).
  exact (conj A B).
Defined.

(** ** Interrupts

    What a command does under an interrupt is what it does without one,
    unless the interrupt cut it short. *)

Lemma whole_refl {A : Type} (o : Outcome A) : whole_or_cut o o.
Proof. now left. Qed.

Lemma whole_bind {A B : Type} (m m' : M A) (k k' : A -> M B) :
  (forall p, whole_or_cut (m p) (m' p)) ->
  (forall a p, whole_or_cut (k a p) (k' a p)) ->
  forall p, whole_or_cut ((x <- m ;; k x) p) ((x <- m' ;; k' x) p).
Proof.
  intros Hm Hk p. unfold bind.
  destruct (Hm p) as [-> | (q & ->)].
  - destruct (m' p) as [a p1 | h p1]; [apply Hk | apply whole_refl].
  - right. now exists q.
Qed.

Lemma whole_elapse (i : option datetime) (d : N) (p : Process) :
  whole_or_cut (Interruptible.elapse i d p) (elapse d p).
Proof.
  unfold Interruptible.elapse, elapse. destruct i as [t |]; [| now left].
  destruct ((now p <=? t) && (t <? now p + Z.of_N d)); [| now left].
  right. eexists. reflexivity.
Qed.

Lemma whole_call {A : Type} (i : option datetime) (c : Call A) (p : Process) :
  whole_or_cut (Interruptible.call i c p) (call c p).
Proof.
  unfold Interruptible.call, call.
  apply whole_bind; [apply whole_elapse | intros; apply whole_refl].
Qed.

Lemma whole_when (c : bool) (m m' : M unit) :
  (forall p, whole_or_cut (m p) (m' p)) ->
  forall p, whole_or_cut (when c m p) (when c m' p).
Proof. intros H p. destruct c; [apply H | apply whole_refl]. Qed.

Lemma whole_stage {A : Type} (i : option datetime) (s : Stage) (c : Call A)
  (p : Process) :
  whole_or_cut (Interruptible.stage i s c p) (stage s c p).
Proof.
  unfold Interruptible.stage, stage.
  do 2 (apply whole_bind; [intro; apply whole_refl | intros]).
  apply whole_call.
Qed.

Lemma whole_pipeline (i : option datetime) (cfg : Cfg) (q : Qbt) (p : Process) :
  whole_or_cut (Interruptible.pipeline i cfg q p) (pipeline cfg q p).
Proof.
  unfold Interruptible.pipeline, pipeline.
  repeat lazymatch goal with
  | |- forall _, _ => intro
  | |- whole_or_cut (bind _ _ _) (bind _ _ _) => apply whole_bind
  | |- whole_or_cut (when _ _ _) (when _ _ _) => apply whole_when
  | |- whole_or_cut (Interruptible.stage _ _ _ _) (stage _ _ _) => apply whole_stage
  | |- whole_or_cut ?o ?o => apply whole_refl
  end.
Qed.

Lemma whole_notify (i : option datetime) (cfg : Cfg) (s e : datetime) (r : Z)
  (n : option datetime) (sm : list string) (p : Process) :
  whole_or_cut (Interruptible.notify i cfg s e r n sm p) (notify cfg s e r n sm p).
Proof.
  unfold Interruptible.notify, notify.
  do 2 (apply whole_bind; [intro; apply whole_refl | intros]).
  apply whole_bind; [intro; apply whole_call | intros; apply whole_refl].
Qed.

Lemma whole_start (i : option datetime) (w : World) (g : Globals) (p : Process) :
  whole_or_cut (Interruptible.start i w g p) (start w g p).
Proof.
  unfold Interruptible.start, start.
  do 4 (apply whole_bind; [intro; apply whole_refl | intros]).
  apply whole_bind; [intro; apply whole_call |].
  intros [cfg |] q; [| apply whole_refl].
  apply whole_bind.
  - intro q1. destruct (qbt cfg); [apply whole_pipeline | apply whole_refl].
  - intros _ q1. apply whole_bind; [intro; apply whole_refl |].
    intros st q2. apply whole_bind; [intro; apply whole_refl |].
    intros [[e r] n] q3. apply whole_notify.
Qed.

Lemma whole_start_one (i : option datetime) (w : World) (g : Globals)
  (first_run : bool) (f : string) (p : Process) :
  whole_or_cut (Interruptible.start_one i w g first_run f p)
    (start_one w g first_run f p).
Proof.
  unfold Interruptible.start_one, start_one.
  do 3 (apply whole_bind; [intro; apply whole_refl | intros]).
  apply whole_bind; [intro; apply whole_start | intros; apply whole_refl].
Qed.

Lemma whole_for_each (files : list string) (body body' : string -> M unit) :
  (forall f p, whole_or_cut (body f p) (body' f p)) ->
  forall p, whole_or_cut (for_each files body p) (for_each files body' p).
Proof.
  intro H. induction files as [| f rest IH]; intro p; cbn [for_each].
  - apply whole_refl.
  - apply whole_bind; [apply H | intros _; apply IH].
Qed.

Lemma whole_start_loop (i : option datetime) (w : World) (g : Globals)
  (first_run : bool) (p : Process) :
  whole_or_cut (Interruptible.start_loop i w g first_run p)
    (start_loop w g first_run p).
Proof.
  unfold Interruptible.start_loop, start_loop.
  assert (F : forall files q,
             whole_or_cut
               (for_each files (Interruptible.start_one i w g first_run) q)
               (for_each files (start_one w g first_run) q)).
  { intros files. apply whole_for_each. intros; apply whole_start_one. }
  destruct (config_files g) as [| f [| f2 rest]]; try apply F.
  do 2 (apply whole_bind; [intro; apply whole_refl | intros]).
  apply whole_start.
Qed.

Lemma whole_sleep (i : option datetime) (w : World) (secs : Z) (p : Process) :
  whole_or_cut (Interruptible.sleep i w secs p) (sleep w secs p).
Proof.
  unfold Interruptible.sleep, sleep.
  destruct (secs <? 0); [apply whole_refl |].
  do 2 (apply whole_bind; [intro; apply whole_refl | intros]).
  apply whole_elapse.
Qed.

Lemma whole_run_jobs (job_func job_func' : M unit) :
  (forall p, whole_or_cut (job_func p) (job_func' p)) ->
  forall (l : list Job) (p : Process),
    whole_or_cut (Schedule.run_jobs job_func l p) (Schedule.run_jobs job_func' l p).
Proof.
  intros H l. induction l as [| j rest IH]; intro p; cbn [Schedule.run_jobs].
  - apply whole_refl.
  - apply whole_bind; [apply H | intros _ q].
    apply whole_bind; [intro; apply whole_refl | intros _; apply IH].
Qed.


Lemma whole_polling (i : option datetime) (w : World) (g : Globals) (ticks : nat) :
  forall p,
    whole_or_cut (Interruptible.polling i w g ticks p) (polling w g ticks p).
Proof.
  induction ticks as [| n IH]; intro p; cbn [Interruptible.polling polling].
  - apply whole_refl.
  - apply whole_bind; [intro; apply whole_refl |].
    intros [|] q; [apply whole_refl |].
    apply whole_bind.
    + intro q1. unfold Schedule.run_pending. apply whole_run_jobs.
      apply whole_start_loop.
    + intros _ q1. apply whole_bind; [apply whole_sleep | intros _; apply IH].
Qed.

(** ** C8 *)

Lemma turn_ignores_sigterm (w : World) (g : Globals) (s : option datetime)
  (p : Process) :
  turn (with_sigterm s w) g p = turn w g p.
Proof. destruct w. reflexivity. Qed.

Lemma polling_step (w : World) (g : Globals) (ticks : nat) (p : Process) :
  polling w g (S ticks) p
  = match kill_now w p with
    | Ret true _ => end_ p
    | _ => (turn w g ;; polling w g ticks) p
    end.
Proof.
  cbn [polling]. unfold bind at 1. unfold kill_now.
  destruct (match sigterm w with Some t => t <=? now p | None => false end).
  - reflexivity.
  - unfold turn, bind.
    destruct (Schedule.run_pending (start_loop w g false) p); [| reflexivity].
    destruct (sleep w 60 p0); reflexivity.
Qed.

(** Without an interrupt the functions of [Interruptible] are those of
    [Section Program]. *)
Lemma no_interrupt_start (w : World) (g : Globals) :
  Interruptible.start None w g = start w g.
Proof. reflexivity. Qed.

Lemma no_interrupt_start_loop (w : World) (g : Globals) (first_run : bool) :
  Interruptible.start_loop None w g first_run = start_loop w g first_run.
Proof. reflexivity. Qed.

Lemma no_interrupt_sleep (w : World) (secs : Z) :
  Interruptible.sleep None w secs = sleep w secs.
Proof. reflexivity. Qed.

Lemma no_interrupt_turn (w : World) (g : Globals) :
  Interruptible.turn None w g = turn w g.
Proof. reflexivity. Qed.

Lemma no_interrupt_polling (w : World) (g : Globals) (ticks : nat) :
  Interruptible.polling None w g ticks = polling w g ticks.
Proof. reflexivity. Qed.



Lemma end_eq (p : Process) :
  end_ p = Stop (SysExit 0)
             (mkProcess (now p) (jobs p) (fresh_job p) (stats p)
                (args_config_file p) (log p ++ [EvExiting])).
Proof. reflexivity. Qed.





(** ** C9 *)

Section StartupDelay.
Variable w : World.
Variable g : Globals.


Lemma main_interval_eq (ticks : nat) (p : Process) (m : Z) :
  run g = false -> is_valid_cron_syntax w (sch g) = false ->
  sch g = Py.Int m ->
  main w g ticks p
  = (when (negb (startupDelay g =? 0)) (sleep w (startupDelay g)) ;;
     start_loop w g true ;; polling w g ticks)
      (mkProcess (now p)
         [mkJob (fresh_job p) (now p + td_minutes m) (td_minutes m)]
         (S (fresh_job p)) (stats p) (args_config_file p)
         (log p ++ [EvPrintLogo])).
Proof.
  intros Hrun Hcron Hsch. unfold main.
  unfold bind at 1. unfold emit at 1. rewrite Hrun, Hcron.
  unfold every_sch_minutes. rewrite Hsch.
  unfold bind at 1 2. rewrite schedule_every_x_minutes_eq.
  cbn [now jobs fresh_job stats args_config_file log].
  unfold bind.
  destruct (when _ _ _) as [[] p1 | h p1]; [| reflexivity].
  destruct (start_loop w g true p1); reflexivity.
Qed.

Lemma main_cron_eq (ticks : nat) (p : Process) :
  run g = false -> is_valid_cron_syntax w (sch g) = true ->
  main w g ticks p
  = (schedule_from_cron w (sch g) ;; polling w g ticks)
      (mkProcess (now p) (jobs p) (fresh_job p) (stats p) (args_config_file p)
         (log p ++ [EvPrintLogo])).
Proof.
  intros Hrun Hcron. unfold main.
  unfold bind at 1. unfold emit at 1. rewrite Hrun, Hcron.
  unfold bind.
  destruct (schedule_from_cron w (sch g) _); reflexivity.
Qed.
End StartupDelay.



(** ** Further properties of the code *)

(** ** The shape of a run *)

Lemma start_shape (w : World) (g : Globals) (p : Process) :
  exists (d : N) (evs : list Event) (st : Stats) (sm : list string),
    (forall k,
       counter k st
       = match returned (Config w (args_config_file p) (now p)) with
         | Some cfg =>
             match qbt cfg with
             | Some q => pipeline_delta cfg q k
             | None => 0
             end
         | None => 0
         end)
    /\ only_stages evs
    /\ match returned (Config w (args_config_file p) (now p)) with
       | Some cfg =>
           sm = stats_summary_of (tracker_error_tag cfg) (nohardlinks_tag cfg) st
           /\ start w g p
              = ('(e, r, n) <- finished_run w g (now p) sm ;;
                 notify cfg (now p) e r n sm)
                  (mkProcess (now p + Z.of_N d) (jobs p) (fresh_job p) st
                     (args_config_file p)
                     (log p ++ EvStartingRun (args_config_file p) (now p) :: evs))
       | None =>
           sm = [] /\ st = zero_stats
           /\ start w g p
              = (finished_run w g (now p) sm ;; ret tt)
                  (mkProcess (now p + Z.of_N d) (jobs p) (fresh_job p) st
                     (args_config_file p)
                     (log p ++ EvStartingRun (args_config_file p) (now p) :: evs))
       end.
Proof.
  destruct (returned (Config w (args_config_file p) (now p))) as [cfg |] eqn:HC.
  - rewrite (start_loaded_eq w g p cfg HC).
    destruct (qbt cfg) as [q |].
    + destruct (pipeline_adds cfg q (configured w p))
        as (d & evs & st & E & C & B & O).
      exists (took (Config w (args_config_file p) (now p)) + d)%N, evs, st,
        (stats_summary_of (tracker_error_tag cfg) (nohardlinks_tag cfg) st).
      split; [| split; [| split; [reflexivity |]]].
      * intro k. rewrite C. cbn [configured stats].
        now rewrite counter_zero_stats.
      * exact O.
      * unfold bind at 1. rewrite E. unfold bind at 1. unfold get_stats at 1.
        cbn [stats configured now log]. cbv zeta.
        now rewrite N2Z.inj_add, Z.add_assoc, <- app_assoc.
    + exists (took (Config w (args_config_file p) (now p))), [], zero_stats,
        (stats_summary_of (tracker_error_tag cfg) (nohardlinks_tag cfg) zero_stats).
      split; [intro; apply counter_zero_stats |].
      split; [repeat split |]. split; [reflexivity |].
      reflexivity.
  - rewrite (start_failed_eq w g p HC).
    exists (took (Config w (args_config_file p) (now p))), [EvConfigFailed],
      zero_stats, [].
    split; [intro; apply counter_zero_stats |].
    split; [repeat split |]. split; [reflexivity |]. split; [reflexivity |].
    unfold bind at 1. unfold emit at 1. unfold configured.
    cbn [now jobs fresh_job stats args_config_file log].
    now rewrite <- app_assoc.
Qed.

Lemma stats_ext (a b : Stats) :
  (forall k, counter k a = counter k b) -> a = b.
Proof.
  intro H.
  destruct a as [a1 a2 a3 a4 a5 a6 a7 a8 a9 a10 a11 a12 a13 a14 a15 a16 a17].
  destruct b as [b1 b2 b3 b4 b5 b6 b7 b8 b9 b10 b11 b12 b13 b14 b15 b16 b17].
  pose proof (H Added : a1 = b1) as E1.
  pose proof (H Deleted : a2 = b2) as E2.
  pose proof (H DeletedContents : a3 = b3) as E3.
  pose proof (H Resumed : a4 = b4) as E4.
  pose proof (H Rechecked : a5 = b5) as E5.
  pose proof (H Orphaned : a6 = b6) as E6.
  pose proof (H RecycleEmptied : a7 = b7) as E7.
  pose proof (H OrphanedEmptied : a8 = b8) as E8.
  pose proof (H Tagged : a9 = b9) as E9.
  pose proof (H Categorized : a10 = b10) as E10.
  pose proof (H RemUnreg : a11 = b11) as E11.
  pose proof (H TaggedTrackerError : a12 = b12) as E12.
  pose proof (H UntaggedTrackerError : a13 = b13) as E13.
  pose proof (H TaggedNoHL : a14 = b14) as E14.
  pose proof (H UntaggedNoHL : a15 = b15) as E15.
  pose proof (H UpdatedShareLimits : a16 = b16) as E16.
  pose proof (H CleanedShareLimits : a17 = b17) as E17.
  clear H. subst. reflexivity.
Qed.

(** X1.  Every run counts from zero: the counters a run ends with are the
    same whatever they were when the run began. *)
Theorem counters_of_a_run_ignore_earlier_runs (w : World) (g : Globals)
  (p : Process) (st : Stats) :
  stats (final (start w g (with_stats st p))) = stats (final (start w g p)).
Proof.
  apply stats_ext. intro k.
  destruct (start_effect w g p) as [_ _ _ S _].
  destruct (start_effect w g (with_stats st p)) as [_ _ _ S' _].
  cbn [with_stats now args_config_file] in S'.
  now rewrite S, S'.
Qed.

(** X2.  At the end of every run the torrents removed as unregistered and
    those removed for meeting their share limits add up to the torrents
    deleted with and without their contents, and nothing was counted as
    added. *)
Theorem removals_add_up_to_deletions (w : World) (g : Globals) (p : Process) :
  let s := stats (final (start w g p)) in
  rem_unreg s + cleaned_share_limits s = deleted s + deleted_contents s
  /\ added s = 0.
Proof.
  intro s. destruct (start_effect w g p) as [_ _ _ S _]. fold s in S.
  pose proof (S RemUnreg) as H1. pose proof (S CleanedShareLimits) as H2.
  pose proof (S Deleted) as H3. pose proof (S DeletedContents) as H4.
  pose proof (S Added) as H5.
  cbn [counter] in H1, H2, H3, H4, H5.
  rewrite H1, H2, H3, H4, H5.
  destruct (returned (Config w (args_config_file p) (now p))) as [cfg |];
    [| split; reflexivity].
  destruct (qbt cfg) as [q |]; [| split; reflexivity].
  unfold pipeline_delta, on.
  destruct (rem_unregistered (commands cfg) || tag_tracker_error (commands cfg)),
    (share_limits (commands cfg)); split; lia.
Qed.

Lemma pipeline_delta_nonneg (cfg : Cfg) (q : Qbt) (k : Counter) :
  counts_nonneg cfg q -> 0 <= pipeline_delta cfg q k.
Proof.
  intros (H1 & H2 & H3 & H4 & H5 & H6 & H7 & H8 & H9 & H10 & H11 & H12 & H13
          & H14 & H15 & H16).
  unfold pipeline_delta, on.
  destruct k;
    destruct (cat_update (commands cfg)), (tag_update (commands cfg)),
      (rem_unregistered (commands cfg) || tag_tracker_error (commands cfg)),
      (recheck (commands cfg)), (tag_nohardlinks (commands cfg)),
      (share_limits (commands cfg)), (rem_orphaned (commands cfg)); lia.
Qed.

(** X3.  If no stage reports a negative count, no counter is negative at the
    end of a run, so a counter has a line in the summary exactly when it is
    not zero. *)
Theorem counters_are_never_negative (w : World) (g : Globals) (p : Process) :
  (forall cfg q,
     returned (Config w (args_config_file p) (now p)) = Some cfg ->
     qbt cfg = Some q -> counts_nonneg cfg q) ->
  forall k : Counter,
    0 <= counter k (stats (final (start w g p)))
    /\ (0 <? counter k (stats (final (start w g p))))
       = negb (counter k (stats (final (start w g p))) =? 0).
Proof.
  intros H k.
  destruct (start_effect w g p) as [_ _ _ S _].
  assert (N : 0 <= counter k (stats (final (start w g p)))).
  { rewrite S.
    destruct (returned (Config w (args_config_file p) (now p))) as [cfg |];
      [| lia].
    destruct (qbt cfg) as [q |] eqn:Q; [| lia].
    apply pipeline_delta_nonneg. now apply H. }
  split; [exact N |].
  destruct (Z.ltb_spec 0 (counter k (stats (final (start w g p)))));
    destruct (Z.eqb_spec (counter k (stats (final (start w g p)))) 0);
    cbn [negb]; try reflexivity; lia.
Qed.

Lemma sample_counts_nonneg : counts_nonneg Sample.cfg_on Sample.client.
Proof. unfold counts_nonneg. cbn. repeat split; lia. Defined.

Lemma counters_are_never_negative_witness :
  0 <= counter Tagged
         (stats (final (start Sample.world Sample.every_30_minutes
                          (mkProcess 0 [] 0 zero_stats (Some "config.yml") [])))).
Proof.
  refine (proj1 (counters_are_never_negative Sample.world Sample.every_30_minutes
                   (mkProcess 0 [] 0 zero_stats (Some "config.yml") []) _ Tagged)).
  intros cfg q H1 H2.
  injection H1 as <-. injection H2 as <-. exact sample_counts_nonneg.
Defined.

(** ** How the process halts *)

Lemma bind_halted {A B : Type} (m : M A) (k : A -> M B) (p : Process) (h : Halt) :
  halted ((x <- m ;; k x) p) = Some h ->
  halted (m p) = Some h
  \/ exists a p', m p = Ret a p' /\ halted (k a p') = Some h.
Proof.
  unfold bind. destruct (m p) as [a p' | h' p'].
  - intro H. right. now exists a, p'.
  - intro H. now left.
Qed.

Section Halts.
Variable w : World.
Variable g : Globals.

Lemma finished_run_halt (start_time : datetime) (sm : list string) (p : Process)
  (h : Halt) :
  halted (finished_run w g start_time sm p) = Some h -> rearm_halt w g h.
Proof.
  rewrite finished_run_eq. cbv zeta. unfold rearm_halt.
  destruct (run g); [discriminate |].
  destruct (is_valid_cron_syntax w (sch g)).
  - destruct (croniter_next w (sch g) (now p)); [discriminate |].
    intros [= <-]. split; [reflexivity |]. left. now split.
  - destruct (sch g) as [m | s]; [discriminate |].
    intros [= <-]. split; [reflexivity |]. right.
    split; [reflexivity |]. split; [reflexivity |]. now exists s.
Qed.

Lemma start_halt (p : Process) (h : Halt) :
  halted (start w g p) = Some h -> rearm_halt w g h.
Proof.
  destruct (start_shape w g p) as (d & evs & st & sm & _ & _ & H).
  destruct (returned (Config w (args_config_file p) (now p))) as [cfg |].
  - destruct H as (_ & ->). intro Hh.
    apply bind_halted in Hh. destruct Hh as [Hh | ([[e r] n] & p' & _ & Hh)].
    + now apply finished_run_halt in Hh.
    + rewrite notify_eq in Hh. discriminate.
  - destruct H as (_ & _ & ->). intro Hh.
    apply bind_halted in Hh. destruct Hh as [Hh | (a & p' & _ & Hh)].
    + now apply finished_run_halt in Hh.
    + discriminate.
Qed.

Lemma wrapped_halt (pre post : list Event) (f : string) (p : Process) (h : Halt) :
  halted (wrapped w g pre post f p) = Some h -> rearm_halt w g h.
Proof.
  unfold wrapped.
  match goal with |- context [start w g ?q] =>
    pose proof (start_halt q) as H; destruct (start w g q) as [[] p' | h' p']
  end; [discriminate |].
  intros [= <-]. now apply H.
Qed.

Lemma for_each_halt (first_run : bool) (files : list string) :
  forall (p : Process) (h : Halt),
    halted (for_each files (start_one w g first_run) p) = Some h ->
    rearm_halt w g h.
Proof.
  induction files as [| f rest IH]; intros p h; cbn [for_each].
  - discriminate.
  - intro Hh. apply bind_halted in Hh. destruct Hh as [Hh | (a & p' & _ & Hh)].
    + rewrite start_one_wrapped in Hh. now apply wrapped_halt in Hh.
    + now apply IH in Hh.
Qed.

Lemma start_loop_halt (first_run : bool) (p : Process) (h : Halt) :
  halted (start_loop w g first_run p) = Some h -> rearm_halt w g h.
Proof.
  unfold start_loop.
  destruct (config_files g) as [| f [| f2 rest]].
  - discriminate.
  - rewrite single_wrapped. apply wrapped_halt.
  - apply for_each_halt.
Qed.

Lemma run_jobs_halt (job_func : M unit) (P : Halt -> Prop) :
  (forall p h, halted (job_func p) = Some h -> P h) ->
  forall (l : list Job) (p : Process) (h : Halt),
    halted (Schedule.run_jobs job_func l p) = Some h -> P h.
Proof.
  intros H l. induction l as [| j rest IH]; intros p h; cbn [Schedule.run_jobs].
  - discriminate.
  - intro Hh. apply bind_halted in Hh. destruct Hh as [Hh | (a & p1 & _ & Hh)].
    + now apply H in Hh.
    + apply bind_halted in Hh. destruct Hh as [Hh | (b & p2 & _ & Hh)].
      * discriminate.
      * now apply IH in Hh.
Qed.

Lemma turn_halt (p : Process) (h : Halt) :
  halted (turn w g p) = Some h -> rearm_halt w g h.
Proof.
  unfold turn. intro Hh.
  apply bind_halted in Hh. destruct Hh as [Hh | (a & p1 & _ & Hh)].
  - unfold Schedule.run_pending in Hh.
    apply (run_jobs_halt _ (rearm_halt w g)) in Hh; [exact Hh |].
    intros q h'. apply start_loop_halt.
  - rewrite sleep_eq in Hh. discriminate.
Qed.

Lemma polling_halt (ticks : nat) :
  forall (p : Process) (h : Halt),
    halted (polling w g ticks p) = Some h ->
    rearm_halt w g h \/ (h = SysExit 0 /\ sigterm w <> None).
Proof.
  induction ticks as [| n IH]; intros p h.
  - discriminate.
  - rewrite polling_step. unfold kill_now.
    destruct (sigterm w) as [t |] eqn:S.
    + destruct (t <=? now p).
      * intros [= <-]. right. split; [reflexivity | discriminate].
      * intro Hh. apply bind_halted in Hh.
        destruct Hh as [Hh | (a & p1 & _ & Hh)].
        -- left. now apply turn_halt in Hh.
        -- apply IH in Hh. destruct Hh as [Hh | (-> & _)].
           ++ now left.
           ++ right. split; [reflexivity | discriminate].
    + intro Hh. apply bind_halted in Hh.
      destruct Hh as [Hh | (a & p1 & _ & Hh)].
      * left. now apply turn_halt in Hh.
      * apply IH in Hh. destruct Hh as [Hh | (_ & Hn)]; [now left | now elim Hn].
Qed.

Lemma main_halt (ticks : nat) (p : Process) (h : Halt) :
  halted (main w g ticks p) = Some h ->
  rearm_halt w g h
  \/ (h = SysExit 0 /\ run g = false /\ sigterm w <> None)
  \/ (h = Uncaught "ValueError" /\ run g = false /\ startupDelay g < 0).
Proof.
  unfold main. intro Hh.
  apply bind_halted in Hh. destruct Hh as [Hh | (a & p1 & _ & Hh)];
    [discriminate |].
  destruct (run g) eqn:Hrun.
  - apply start_loop_halt in Hh. destruct Hh as (Hh & _). congruence.
  - apply bind_halted in Hh. destruct Hh as [Hh | (b & p2 & _ & Hh)].
    + destruct (is_valid_cron_syntax w (sch g)) eqn:Hcron.
      * apply bind_halted in Hh. destruct Hh as [Hh | (c & p3 & _ & Hh)];
          [| discriminate].
        rewrite schedule_from_cron_eq in Hh.
        destruct (croniter_next w (sch g) (now p1)); [discriminate |].
        injection Hh as <-. left. split; [exact Hrun |]. left. now split.
      * apply bind_halted in Hh. destruct Hh as [Hh | (c & p3 & _ & Hh)].
        { unfold every_sch_minutes in Hh.
          destruct (sch g) as [m | s] eqn:Hsch; [discriminate |].
          injection Hh as <-. left. split; [exact Hrun |]. right.
          rewrite Hsch. split; [reflexivity |]. split; [exact Hcron |].
          now exists s. }
        apply bind_halted in Hh. destruct Hh as [Hh | (d & p4 & _ & Hh)].
        { unfold when in Hh.
          destruct (negb (startupDelay g =? 0)); [| discriminate].
          rewrite sleep_eq in Hh.
          destruct (startupDelay g <? 0) eqn:Hneg; [| discriminate].
          injection Hh as <-. right; right.
          apply Z.ltb_lt in Hneg. repeat split; assumption. }
        left. now apply start_loop_halt in Hh.
    + apply polling_halt in Hh. destruct Hh as [Hh | (-> & Hs)].
      * now left.
      * right; left. repeat split; assumption.
Qed.
End Halts.

(** ** The [__main__] block under an interrupt *)

Lemma main_body (w : World) (g : Globals) (ticks : nat) (p : Process) :
  main w g ticks p
  = (if run g then start_loop w g true
     else
       (if is_valid_cron_syntax w (sch g) then
          schedule_from_cron w (sch g) ;; ret tt
        else
          every_sch_minutes g ;;
          when (negb (startupDelay g =? 0)) (sleep w (startupDelay g)) ;;
          start_loop w g true) ;;
       polling w g ticks)
      (mkProcess (now p) (jobs p) (fresh_job p) (stats p) (args_config_file p)
         (log p ++ [EvPrintLogo])).
Proof. reflexivity. Qed.

Lemma main_is_not_interrupted (w : World) (g : Globals) (ticks : nat)
  (p : Process) :
  halted (main w g ticks p) <> Some (Uncaught "KeyboardInterrupt").
Proof.
  intro H. apply main_halt in H.
  destruct H as [(_ & [(H & _) | (H & _)]) | [(H & _) | (H & _)]];
    discriminate.
Qed.

Lemma interruptible_main_body (interrupt : option datetime) (w : World)
  (g : Globals) (ticks : nat) (p : Process) :
  Interruptible.main interrupt w g ticks p
  = Interruptible.except_KeyboardInterrupt
      (if run g then Interruptible.start_loop interrupt w g true
       else
         (if is_valid_cron_syntax w (sch g) then
            schedule_from_cron w (sch g) ;; ret tt
          else
            every_sch_minutes g ;;
            when (negb (startupDelay g =? 0))
              (Interruptible.sleep interrupt w (startupDelay g)) ;;
            Interruptible.start_loop interrupt w g true) ;;
         Interruptible.polling interrupt w g ticks)
      (mkProcess (now p) (jobs p) (fresh_job p) (stats p) (args_config_file p)
         (log p ++ [EvPrintLogo])).
Proof. reflexivity. Qed.

Lemma except_nothing (body : M unit) (p : Process) :
  halted (body p) <> Some (Uncaught "KeyboardInterrupt") ->
  Interruptible.except_KeyboardInterrupt body p = body p.
Proof.
  intro N. unfold Interruptible.except_KeyboardInterrupt.
  destruct (body p) as [[] q | [c | e] q]; try reflexivity.
  destruct (String.eqb_spec e "KeyboardInterrupt") as [-> | _];
    [now elim N | reflexivity].
Qed.

Lemma interruptible_main (interrupt : option datetime) (w : World) (g : Globals)
  (ticks : nat) (p : Process) :
  Interruptible.main interrupt w g ticks p = main w g ticks p
  \/ exists q : Process,
       Interruptible.main interrupt w g ticks p
       = Stop (SysExit 0)
           (mkProcess (now q) (jobs q) (fresh_job q) (stats q)
              (args_config_file q) (log q ++ [EvExiting])).
Proof.
  pose proof (main_is_not_interrupted w g ticks p) as N.
  rewrite interruptible_main_body. rewrite main_body in *.
  match goal with
  | |- context [Interruptible.except_KeyboardInterrupt ?b ?q] =>
      match type of N with
      | halted (?b' q) <> _ =>
          assert (W : whole_or_cut (b q) (b' q))
      end
  end.
  { destruct (run g); [apply whole_start_loop |].
    apply whole_bind.
    - intro q. destruct (is_valid_cron_syntax w (sch g)); [apply whole_refl |].
      apply whole_bind; [intro; apply whole_refl | intros _ q1].
      apply whole_bind; [| intros _ q2; apply whole_start_loop].
      intro q2. apply whole_when. intro; apply whole_sleep.
    - intros _ q. apply whole_polling. }
  destruct W as [W | (q & W)].
  - left. rewrite <- W in N. rewrite (except_nothing _ _ N). exact W.
  - right. exists q. unfold Interruptible.except_KeyboardInterrupt.
    rewrite W. reflexivity.
Qed.

Lemma no_interrupt_main (w : World) (g : Globals) (ticks : nat) (p : Process) :
  Interruptible.main None w g ticks p = main w g ticks p.
Proof.
  pose proof (main_is_not_interrupted w g ticks p) as N.
  rewrite interruptible_main_body. rewrite main_body in *.
  exact (except_nothing _ _ N).
Qed.


(** X4.  The schedule, once it has passed the start-up check, is never
    taken for a number of minutes while it is a string: the script never
    stops on the [TypeError] of [timedelta(minutes=sch)], neither at
    start-up nor at the end of a run, whatever the collaborators answer and
    whenever an interrupt is raised.  (The check leaves a string only if
    [croniter] accepts it, and both places ask [croniter] again before they
    count minutes.) *)
Theorem schedule_is_never_taken_for_minutes_when_a_string
  (interrupt : option datetime) (w : World) (argv : Argv) (ticks : nat)
  (t0 : datetime) :
  halted (Interruptible.qbit_manage interrupt w argv ticks (boot t0))
  <> Some (Uncaught "TypeError").
Proof.
  unfold Interruptible.qbit_manage.
  destruct (resolve_config_files w (argv_configfiles argv)) as [files |];
    [| discriminate].
  destruct (check_schedule w (argv_schedule argv)) as [s |] eqn:Hs;
    [| discriminate].
  destruct (check_startup_delay (argv_startupDelay argv)) as [d |];
    [| discriminate].
  match goal with
  | |- halted (Interruptible.main _ _ ?g _ ?p) <> _ =>
      destruct (interruptible_main interrupt w g ticks p) as [-> | (q & ->)]
  end; [| discriminate].
  intro Hh. apply main_halt in Hh.
  destruct Hh as [(_ & [(Hh & _) | (_ & Hc & (e & He))]) | [(Hh & _) | (Hh & _)]];
    try discriminate.
  cbn [sch] in Hc, He. subst s.
  unfold check_schedule in Hs.
  destruct (Py.int (argv_schedule argv)); [discriminate |].
  destruct (is_valid_cron_syntax w (Py.Str (argv_schedule argv))) eqn:Hv;
    cbn [negb] in Hs; [| discriminate].
  injection Hs as <-. congruence.
Qed.

(** ** The end of a run and the job table *)

(** X6.  On a schedule, the next run a run announces is the time at which
    the one job it leaves in the table is due: the end of the run is logged
    with it, and when the configuration loaded the web hooks receive it,
    together with the counters and the summary the run ended with. *)
Theorem announced_next_run_is_when_the_job_is_due (w : World) (g : Globals)
  (p : Process) :
  run g = false ->
  halted (start w g p) = None ->
  exists (t : datetime) (d : timedelta) (end_time : datetime) (sm : list string),
    jobs (final (start w g p)) = [mkJob (fresh_job p) t d]
    /\ now p <= end_time <= now (final (start w g p))
    /\ In (EvFinishedRun end_time ((end_time - now p) / 1000000) (Some t) sm)
         (log (final (start w g p)))
    /\ forall cfg,
         returned (Config w (args_config_file p) (now p)) = Some cfg ->
         sm = stats_summary_of (tracker_error_tag cfg) (nohardlinks_tag cfg)
                (stats (final (start w g p)))
         /\ In (EvEndTimeHooks (now p) end_time ((end_time - now p) / 1000000)
                  (Some t) (stats (final (start w g p))) sm)
              (log (final (start w g p))).
Proof.
  intros Hrun Hh.
  destruct (start_shape w g p) as (d & evs & st & sm & _ & _ & H).
  destruct (returned (Config w (args_config_file p) (now p))) as [cfg |].
  - destruct H as (Hsm & E). rewrite E in Hh |- *. clear E.
    unfold bind in Hh |- *. rewrite finished_run_eq in Hh |- *.
    cbv zeta in Hh |- *. rewrite Hrun in Hh |- *.
    cbn [now] in Hh |- *.
    destruct (is_valid_cron_syntax w (sch g)).
    + destruct (croniter_next w (sch g) (now p + Z.of_N d)) as [t |];
        [| discriminate].
      rewrite notify_eq.
      cbn [final now jobs fresh_job stats args_config_file log].
      exists t, (t - (now p + Z.of_N d)), (now p + Z.of_N d), sm.
      split; [f_equal; f_equal; lia |].
      split; [lia |].
      split; [rewrite !in_app_iff; cbn; tauto |].
      intros cfg' [= <-]. split; [exact Hsm |].
      rewrite !in_app_iff. cbn. tauto.
    + destruct (sch g) as [m | s]; [| discriminate].
      rewrite notify_eq.
      cbn [final now jobs fresh_job stats args_config_file log].
      exists (now p + Z.of_N d + td_minutes m), (td_minutes m),
        (now p + Z.of_N d), sm.
      split; [reflexivity |].
      split; [lia |].
      split; [rewrite !in_app_iff; cbn; tauto |].
      intros cfg' [= <-]. split; [exact Hsm |].
      rewrite !in_app_iff. cbn. tauto.
  - destruct H as (-> & -> & E). rewrite E in Hh |- *. clear E.
    unfold bind in Hh |- *. rewrite finished_run_eq in Hh |- *.
    cbv zeta in Hh |- *. rewrite Hrun in Hh |- *.
    cbn [now] in Hh |- *.
    destruct (is_valid_cron_syntax w (sch g)).
    + destruct (croniter_next w (sch g) (now p + Z.of_N d)) as [t |];
        [| discriminate].
      cbn [final now jobs fresh_job stats args_config_file log ret].
      exists t, (t - (now p + Z.of_N d)), (now p + Z.of_N d), [].
      split; [f_equal; f_equal; lia |].
      split; [lia |].
      split; [rewrite !in_app_iff; cbn; tauto |].
      intros cfg' [=].
    + destruct (sch g) as [m | s]; [| discriminate].
      cbn [final now jobs fresh_job stats args_config_file log ret].
      exists (now p + Z.of_N d + td_minutes m), (td_minutes m),
        (now p + Z.of_N d), [].
      split; [reflexivity |].
      split; [lia |].
      split; [rewrite !in_app_iff; cbn; tauto |].
      intros cfg' [=].
Qed.

Lemma announced_next_run_witness :
  exists t d,
    jobs (final (start Sample.world Sample.every_30_minutes
                   (mkProcess 0 [] 0 zero_stats (Some "config.yml") [])))
    = [mkJob 0 t d].
Proof.
  destruct (announced_next_run_is_when_the_job_is_due Sample.world
              Sample.every_30_minutes
              (mkProcess 0 [] 0 zero_stats (Some "config.yml") [])
              eq_refl eq_refl) as (t & d & e & sm & H & _).
  now exists t, d.
Defined.



(** ** The job table while the loop polls *)

Section OneJob.
Variable w : World.
Variable g : Globals.
Hypothesis scheduled : run g = false.

Lemma start_leaves_one_job (p : Process) :
  halted (start w g p) = None ->
  exists t d,
    jobs (final (start w g p)) = [mkJob (fresh_job p) t d]
    /\ fresh_job (final (start w g p)) = S (fresh_job p).
Proof.
  intro Hh. destruct (start_effect w g p) as [_ _ _ _ J].
  now rewrite scheduled, Hh in J.
Qed.

Lemma wrapped_leaves_one_job (pre post : list Event) (f : string) (p : Process) :
  halted (wrapped w g pre post f p) = None ->
  exists t d,
    jobs (final (wrapped w g pre post f p)) = [mkJob (fresh_job p) t d]
    /\ fresh_job (final (wrapped w g pre post f p)) = S (fresh_job p).
Proof.
  unfold wrapped.
  match goal with |- context [start w g ?q] =>
    pose proof (start_leaves_one_job q) as H;
    destruct (start w g q) as [[] p' | h p']
  end; [| discriminate].
  intros _. exact (H eq_refl).
Qed.

Lemma for_each_jobs (first_run : bool) (files : list string) :
  forall p,
    halted (for_each files (start_one w g first_run) p) = None ->
    (files = [] /\ final (for_each files (start_one w g first_run) p) = p)
    \/ renewed p (final (for_each files (start_one w g first_run) p)).
Proof.
  induction files as [| f rest IH]; intros p Hh.
  - left. split; reflexivity.
  - right. cbn [for_each] in Hh |- *. unfold bind in Hh |- *.
    rewrite start_one_wrapped in Hh |- *.
    pose proof (wrapped_leaves_one_job
                  (EvAddConfigHandler f :: (if negb first_run then [EvPrintLogo] else []))
                  [EvRemoveConfigHandler f] f p) as W.
    destruct (wrapped w g _ _ f p) as [[] p1 | h p1]; [| discriminate].
    destruct (W eq_refl) as (t & d & J & F). cbn [final] in J, F.
    destruct (IH p1 Hh) as [(-> & E) | (j & J' & B)].
    + cbn [for_each] in *. unfold ret in *. cbn [final].
      exists (mkJob (fresh_job p) t d). split; [exact J |].
      cbn [job_id]. lia.
    + exists j. split; [exact J' |]. lia.
Qed.

Lemma start_loop_jobs (first_run : bool) (p : Process) :
  halted (start_loop w g first_run p) = None ->
  (config_files g = [] /\ final (start_loop w g first_run p) = p)
  \/ renewed p (final (start_loop w g first_run p)).
Proof.
  unfold start_loop.
  destruct (config_files g) as [| f [| f2 rest]].
  - intros _. left. split; reflexivity.
  - rewrite single_wrapped. intro Hh. right.
    destruct (wrapped_leaves_one_job _ _ _ _ Hh) as (t & d & J & F).
    eexists. split; [exact J |]. cbn [job_id]. lia.
  - intro Hh. destruct (for_each_jobs first_run (f :: f2 :: rest) p Hh)
      as [(E & _) | R]; [discriminate | now right].
Qed.

Lemma start_loop_keeps_one_job (first_run : bool) (p : Process) :
  one_job p -> halted (start_loop w g first_run p) = None ->
  one_job (final (start_loop w g first_run p)).
Proof.
  intros O Hh. destruct (start_loop_jobs first_run p Hh) as [(_ & ->) | (j & J & B)].
  - exact O.
  - exists j. split; [exact J | lia].
Qed.

Lemma run_pending_one (job_func : M unit) (p : Process) (j : Job) :
  jobs p = [j] ->
  Schedule.run_pending job_func p
  = if Schedule.should_run (now p) j
    then (job_func ;; Schedule.reschedule j ;; ret tt) p
    else Ret tt p.
Proof.
  intro J. unfold Schedule.run_pending. rewrite J. unfold filter.
  destruct (Schedule.should_run (now p) j); reflexivity.
Qed.

Lemma sleep_60_eq (p : Process) :
  sleep w 60 p
  = Ret tt (mkProcess
              (now p + Z.of_N (Z.to_N (td_seconds 60) + sleep_overrun w (now p)))
              (jobs p) (fresh_job p) (stats p) (args_config_file p)
              (log p ++ [EvSleep 60])).
Proof. rewrite sleep_eq. reflexivity. Qed.

Lemma turn_keeps_one_job (p p' : Process) :
  one_job p -> turn w g p = Ret tt p' -> one_job p'.
Proof.
  intros (j & J & B) T. unfold turn in T. unfold bind at 1 in T.
  rewrite (run_pending_one _ p j J) in T.
  destruct (Schedule.should_run (now p) j).
  - unfold bind at 1 in T.
    pose proof (start_loop_jobs false p) as L.
    destruct (start_loop w g false p) as [[] p1 | h p1]; [| discriminate].
    cbn [final halted] in L.
    unfold bind at 1 in T. unfold Schedule.reschedule at 1 in T.
    unfold ret at 1 in T.
    rewrite sleep_60_eq in T.
    apply (f_equal final) in T. cbn [final] in T. subst p'.
    cbn [jobs fresh_job now].
    destruct (L eq_refl) as [(_ & ->) | (j' & J' & B')].
    + rewrite J. unfold map. rewrite Nat.eqb_refl.
      eexists. split; [reflexivity |]. exact B.
    + rewrite J'. unfold map.
      destruct (Nat.eqb_spec (job_id j') (job_id j)) as [E | _]; [lia |].
      exists j'. split; [reflexivity | cbn [fresh_job]; lia].
  - rewrite sleep_60_eq in T.
    apply (f_equal final) in T. cbn [final] in T. subst p'.
    cbn [jobs fresh_job]. now exists j.
Qed.

Lemma polling_keeps_one_job (ticks : nat) :
  forall p,
    one_job p ->
    halted (polling w g ticks p) = None
    \/ halted (polling w g ticks p) = Some (SysExit 0) ->
    one_job (final (polling w g ticks p)).
Proof.
  induction ticks as [| n IH]; intros p O Hh.
  - exact O.
  - rewrite polling_step in Hh |- *.
    destruct (kill_now w p) as [[|] q | h q] eqn:K.
    + unfold end_, bind, emit, sys_exit.
      cbn [final jobs fresh_job]. exact O.
    + unfold bind in Hh |- *.
      pose proof (turn_keeps_one_job p) as TK.
      pose proof (turn_halt w g p) as TH.
      destruct (turn w g p) as [[] p1 | h p1].
      * apply IH; [now apply (TK p1) | exact Hh].
      * cbn [halted] in Hh. destruct Hh as [Hh | Hh]; [discriminate |].
        assert (h = SysExit 0) as -> by congruence.
        destruct (TH (SysExit 0) eq_refl) as (_ & [(E & _) | (E & _)]);
          discriminate.
    + unfold kill_now in K. discriminate.
Qed.
End OneJob.

(** X5.  Outside run-once mode, as long as the script has not halted, and
    also when it has exited on a signal, the job table holds exactly one
    job: every rearm clears the table before it adds its job, and the
    library's own rearm of a job that ran falls on a Job object that is no
    longer in the table. *)
Theorem one_job_is_pending_while_scheduling (w : World) (g : Globals)
  (ticks : nat) (p : Process) :
  run g = false ->
  halted (main w g ticks p) = None
  \/ halted (main w g ticks p) = Some (SysExit 0) ->
  exists j, jobs (final (main w g ticks p)) = [j].
Proof.
  intros Hrun Hh.
  set (A := fun o : Outcome unit =>
              halted o = None \/ halted o = Some (SysExit 0)).
  change (A (main w g ticks p)) in Hh.
  assert (O : one_job (final (main w g ticks p))).
  { destruct (is_valid_cron_syntax w (sch g)) eqn:Hcron.
    - rewrite (main_cron_eq w g ticks p Hrun Hcron) in Hh |- *.
      unfold bind in Hh |- *. rewrite schedule_from_cron_eq in Hh |- *.
      cbn [now] in Hh |- *.
      destruct (croniter_next w (sch g) (now p)) as [t |].
      + apply (polling_keeps_one_job w g Hrun); [| exact Hh].
        eexists. split; [reflexivity |]. cbn [job_id fresh_job]. lia.
      + unfold A in Hh; cbn [halted] in Hh. destruct Hh; discriminate.
    - destruct (sch g) as [m | s] eqn:Hsch.
      + rewrite <- Hsch in Hcron.
        rewrite (main_interval_eq w g ticks p m Hrun Hcron Hsch) in Hh |- *.
        set (p1 := mkProcess _ _ _ _ _ _) in *.
        assert (O1 : one_job p1).
        { eexists. split; [reflexivity |]. cbn [job_id fresh_job p1]. lia. }
        unfold bind at 1 in Hh. unfold bind at 1.
        assert (S : forall q,
                  when (negb (startupDelay g =? 0)) (sleep w (startupDelay g)) p1
                  = Ret tt q -> one_job q).
        { unfold when. destruct (negb (startupDelay g =? 0)).
          - rewrite sleep_eq. destruct (startupDelay g <? 0); [discriminate |].
            intros q E. apply (f_equal final) in E. cbn [final] in E.
            subst q. exact O1.
          - intros q E. apply (f_equal final) in E. cbn [final ret] in E.
            unfold ret in E. cbn [final] in E. subst q. exact O1. }
        assert (SH : forall h q,
                  when (negb (startupDelay g =? 0)) (sleep w (startupDelay g)) p1
                  = Stop h q -> h = Uncaught "ValueError").
        { unfold when. destruct (negb (startupDelay g =? 0)); [| discriminate].
          rewrite sleep_eq. destruct (startupDelay g <? 0); [| discriminate].
          intros h q E. apply (f_equal halted) in E. cbn [halted] in E.
          congruence. }
        destruct (when _ _ p1) as [[] p2 | h p2].
        * specialize (S p2 eq_refl).
          unfold bind in Hh |- *.
          pose proof (start_loop_keeps_one_job w g Hrun true p2 S) as SL.
          pose proof (start_loop_halt w g true p2) as SLH.
          destruct (start_loop w g true p2) as [[] p3 | h p3].
          -- apply (polling_keeps_one_job w g Hrun); [now apply SL | exact Hh].
          -- unfold A in Hh; cbn [halted] in Hh. destruct Hh as [Hh | Hh]; [discriminate |].
             assert (h = SysExit 0) as -> by congruence.
             destruct (SLH (SysExit 0) eq_refl) as (_ & [(E & _) | (E & _)]);
               discriminate.
        * unfold A in Hh; cbn [halted] in Hh. destruct Hh as [Hh | Hh]; [discriminate |].
          rewrite (SH h p2 eq_refl) in Hh. discriminate.
      + exfalso. unfold main in Hh. unfold bind at 1 in Hh.
        unfold emit at 1 in Hh. rewrite Hrun in Hh.
        rewrite <- Hsch in Hcron. rewrite Hcron in Hh.
        unfold every_sch_minutes in Hh. rewrite Hsch in Hh.
        cbn [halted bind raise] in Hh. unfold bind, raise in Hh.
        unfold A in Hh; unfold A in Hh; cbn [halted] in Hh. destruct Hh; discriminate. }
  destruct O as (j & J & _). now exists j.
Qed.

Lemma one_job_witness :
  exists j,
    jobs (final (main Sample.world Sample.every_30_minutes 3 (boot 0))) = [j].
Proof.
  apply (one_job_is_pending_while_scheduling Sample.world
           Sample.every_30_minutes 3 (boot 0) eq_refl).
  left. vm_compute. reflexivity.
Defined.

(** ** Run-once mode *)

Lemma bind_ext {A B : Type} (m : M A) (k k' : A -> M B) (p : Process) :
  (forall a q, k a q = k' a q) ->
  (x <- m ;; k x) p = (x <- m ;; k' x) p.
Proof. intro H. unfold bind. destruct (m p); [apply H | reflexivity]. Qed.

Lemma finished_run_once (w : World) (g g' : Globals) (start_time : datetime)
  (sm : list string) (p : Process) :
  run g = true -> run g' = true ->
  finished_run w g start_time sm p = finished_run w g' start_time sm p.
Proof. intros R R'. rewrite !finished_run_eq. now rewrite R, R'. Qed.

Lemma start_once (i : option datetime) (w : World) (g g' : Globals)
  (p : Process) :
  run g = true -> run g' = true ->
  Interruptible.start i w g p = Interruptible.start i w g' p.
Proof.
  intros R R'. unfold Interruptible.start.
  do 5 (apply bind_ext; intros).
  destruct a3 as [cfg |].
  - do 2 (apply bind_ext; intros).
    unfold bind. now rewrite (finished_run_once w g g' _ _ _ R R').
  - apply bind_ext; intros.
    unfold bind. now rewrite (finished_run_once w g g' _ _ _ R R').
Qed.

Lemma for_each_ext (files : list string) (body body' : string -> M unit) :
  (forall f p, body f p = body' f p) ->
  forall p, for_each files body p = for_each files body' p.
Proof.
  intro H. induction files as [| f rest IH]; intro p; [reflexivity |].
  cbn [for_each]. unfold bind. rewrite H.
  destruct (body' f p); [apply IH | reflexivity].
Qed.

Lemma start_loop_once (i : option datetime) (w : World) (g g' : Globals)
  (first_run : bool) (p : Process) :
  run g = true -> run g' = true -> config_files g' = config_files g ->
  Interruptible.start_loop i w g first_run p
  = Interruptible.start_loop i w g' first_run p.
Proof.
  intros R R' F. unfold Interruptible.start_loop. rewrite F.
  assert (E : forall files q,
             for_each files (Interruptible.start_one i w g first_run) q
             = for_each files (Interruptible.start_one i w g' first_run) q).
  { intro files. apply for_each_ext. intros f q.
    unfold Interruptible.start_one.
    do 3 (apply bind_ext; intros).
    unfold bind. now rewrite (start_once i w g g' _ R R'). }
  destruct (config_files g) as [| f [| f2 rest]]; try apply E.
  do 2 (apply bind_ext; intros). now apply start_once.
Qed.

Lemma main_once (i : option datetime) (w : World) (g g' : Globals)
  (ticks ticks' : nat) (p : Process) :
  run g = true -> run g' = true -> config_files g' = config_files g ->
  Interruptible.main i w g ticks p = Interruptible.main i w g' ticks' p.
Proof.
  intros R R' F. unfold Interruptible.main. rewrite R, R'.
  apply bind_ext. intros _ q. unfold Interruptible.except_KeyboardInterrupt.
  now rewrite (start_loop_once i w g g' true q R R' F).
Qed.

Lemma run_once_main (w : World) (g : Globals) (ticks : nat) (p : Process) :
  run g = true ->
  halted (main w g ticks p) = None
  /\ runs_begun (log (final (main w g ticks p)))
     = runs_begun (log p) ++ map Some (config_files g)
  /\ sleeps (log (final (main w g ticks p))) = sleeps (log p)
  /\ jobs (final (main w g ticks p)) = jobs p.
Proof.
  intro Hrun.
  assert (E : forall n, main w g n p
                        = start_loop w g true
                            (mkProcess (now p) (jobs p) (fresh_job p) (stats p)
                               (args_config_file p) (log p ++ [EvPrintLogo]))).
  { intro n. unfold main. unfold bind at 1. unfold emit at 1.
    now rewrite Hrun. }
  split; [| split; [| split]].
  - rewrite E.
    match goal with |- context [start_loop w g true ?q] =>
      destruct (start_loop_effect w g true q) as [_ R _ _ _ _]
    end.
    apply R. now left.
  - rewrite E.
    match goal with |- context [start_loop w g true ?q] =>
      destruct (start_loop_effect w g true q)
        as [_ R (evs & L & _ & _ & _ & B & _) _ _ _]
    end.
    rewrite L. cbn [log]. rewrite <- app_assoc, !runs_begun_app.
    rewrite (B (R (or_introl Hrun))). reflexivity.
  - rewrite E.
    match goal with |- context [start_loop w g true ?q] =>
      destruct (start_loop_effect w g true q)
        as [_ _ (evs & L & S & _) _ _ _]
    end.
    rewrite L. cbn [log]. rewrite <- app_assoc, !sleeps_app, S.
    cbn [sleeps app]. now rewrite app_nil_r.
  - rewrite E.
    match goal with |- context [start_loop w g true ?q] =>
      destruct (start_loop_effect w g true q) as [_ _ _ _ _ K]
    end.
    now rewrite (K Hrun).
Qed.

(** X7.  With [run] set the script makes one pass over the configuration
    files: it returns, or a [KeyboardInterrupt] makes it exit with code 0,
    and without an interrupt it returns; when it returns it has begun one
    run per file, in their order, has never slept and has left the job table
    as it found it; and neither the schedule nor the start-up delay nor the
    number of turns allowed to the loop plays any part in it. *)
Theorem run_once_makes_one_pass_unless_interrupted
  (interrupt : option datetime) (w : World) (g : Globals) (ticks : nat)
  (p : Process) :
  run g = true ->
  (halted (Interruptible.main interrupt w g ticks p) = None
   \/ halted (Interruptible.main interrupt w g ticks p) = Some (SysExit 0))
  /\ (interrupt = None ->
      halted (Interruptible.main interrupt w g ticks p) = None)
  /\ (halted (Interruptible.main interrupt w g ticks p) = None ->
      runs_begun (log (final (Interruptible.main interrupt w g ticks p)))
      = runs_begun (log p) ++ map Some (config_files g)
      /\ sleeps (log (final (Interruptible.main interrupt w g ticks p)))
         = sleeps (log p)
      /\ jobs (final (Interruptible.main interrupt w g ticks p)) = jobs p)
  /\ (forall (g' : Globals) (ticks' : nat),
        run g' = true -> config_files g' = config_files g ->
        Interruptible.main interrupt w g' ticks' p
        = Interruptible.main interrupt w g ticks p).
Proof.
  intro Hrun.
  destruct (run_once_main w g ticks p Hrun) as (H & B & S & J).
  split; [| split; [| split]].
  - destruct (interruptible_main interrupt w g ticks p) as [-> | (q & ->)];
      [now left | now right].
  - intros ->. now rewrite no_interrupt_main.
  - destruct (interruptible_main interrupt w g ticks p) as [-> | (q & ->)];
      [| discriminate].
    intros _. repeat split; assumption.
  - intros g' ticks' R' F. symmetry. now apply main_once.
Qed.

(** X7 on two files, the second of which does not load. *)
Lemma run_once_witness :
  runs_begun
    (log (final (Interruptible.main None Sample.world
                   (mkGlobals true (Py.Int 30) 0 ["a.yml"; "broken.yml"]) 5
                   (boot 0))))
  = [Some "a.yml"; Some "broken.yml"].
Proof.
  refine (proj1 (proj1 (proj2 (proj2
            (run_once_makes_one_pass_unless_interrupted None Sample.world
               (mkGlobals true (Py.Int 30) 0 ["a.yml"; "broken.yml"])
               5 (boot 0) eq_refl))) _)).
  vm_compute. reflexivity.
Defined.

(** ** One turn of the loop *)

Lemma filter_none {A : Type} (f : A -> bool) (l : list A) :
  (forall x, In x l -> f x = false) -> filter f l = [].
Proof.
  induction l as [| a l IH]; intro H; [reflexivity |].
  cbn [filter]. rewrite (H a (or_introl eq_refl)).
  apply IH. intros x Hx. apply H. now right.
Qed.

(** X8.  A turn of the loop in which no job is due begins no run: it only
    sleeps for a minute.  And a turn that returns has taken a minute at
    least, whatever it ran. *)
Theorem turn_waits_a_minute (w : World) (g : Globals) (p : Process) :
  ((forall j, In j (jobs p) -> now p < next_run j) ->
   turn w g p
   = Ret tt (mkProcess
               (now p + Z.of_N (Z.to_N 60000000 + sleep_overrun w (now p)))
               (jobs p) (fresh_job p) (stats p) (args_config_file p)
               (log p ++ [EvSleep 60])))
  /\ (forall p', turn w g p = Ret tt p' -> now p + 60000000 <= now p').
Proof.
  split.
  - intro H. unfold turn, bind, Schedule.run_pending.
    rewrite filter_none.
    + cbn [Schedule.sorted fold_left Schedule.run_jobs]. unfold ret.
      rewrite sleep_eq. reflexivity.
    + intros j Hj. unfold Schedule.should_run.
      apply Z.leb_gt. now apply H.
  - intros p' T. unfold turn, bind in T.
    pose proof (run_pending_later (start_loop w g false)
                  (start_loop_later w g false) p) as (N & _).
    destruct (Schedule.run_pending (start_loop w g false) p) as [[] p1 | h p1];
      [| discriminate].
    cbn [final] in N. rewrite sleep_60_eq in T.
    apply (f_equal final) in T. cbn [final] in T. subst p'.
    cbn [now]. unfold td_seconds. lia.
Qed.

(** ** The start-up checks *)



(** X10.  A start-up delay that is not an integer stops the script with exit
    code 1 before any run, whatever the schedule and the configuration
    files are. *)
Theorem startup_delay_must_be_an_integer (w : World) (argv : Argv)
  (ticks : nat) (t0 : datetime) :
  Py.int (argv_startupDelay argv) = None ->
  halted (qbit_manage w argv ticks (boot t0)) = Some (SysExit 1)
  /\ runs_begun (log (final (qbit_manage w argv ticks (boot t0)))) = []
  /\ jobs (final (qbit_manage w argv ticks (boot t0))) = [].
Proof.
  intro H. unfold qbit_manage, check_startup_delay.
  destruct (resolve_config_files w (argv_configfiles argv));
    [| repeat split].
  destruct (check_schedule w (argv_schedule argv)); [| repeat split].
  rewrite H. repeat split.
Qed.

Lemma startup_delay_must_be_an_integer_witness :
  halted (qbit_manage Sample.world (mkArgv false "30" "soon" "config.yml") 2
            (boot 0))
  = Some (SysExit 1).
Proof.
  exact (proj1 (startup_delay_must_be_an_integer Sample.world
                  (mkArgv false "30" "soon" "config.yml") 2 0 eq_refl)).
Defined.

(** ** Polling without a signal *)

Section KeepsPolling.
Variable w : World.
Variable g : Globals.
Hypothesis rearms : can_rearm w g.


End KeepsPolling.



(** ** Start-up on a cron schedule *)

(** X13.  On a cron schedule nothing runs at start-up: before the loop the
    script only prints its logo and puts into the table the job for the next
    occurrence [croniter] gives; and if that occurrence is still ahead when
    the loop takes its first turn, that turn begins no run either.  When
    [croniter] gives no occurrence the script exits with code 1 at once. *)
Theorem cron_schedule_runs_nothing_at_startup (w : World) (g : Globals)
  (ticks : nat) (p : Process) :
  run g = false ->
  is_valid_cron_syntax w (sch g) = true ->
  match croniter_next w (sch g) (now p) with
  | Some t =>
      let p1 := mkProcess (now p) [mkJob (fresh_job p) t (t - now p)]
                  (S (fresh_job p)) (stats p) (args_config_file p)
                  (log p ++ [EvPrintLogo]) in
      main w g 0 p = Ret tt p1
      /\ main w g ticks p = polling w g ticks p1
      /\ (now p < t -> sigterm w = None ->
          runs_begun (log (final (main w g 1 p))) = runs_begun (log p))
  | None =>
      main w g ticks p
      = Stop (SysExit 1)
          (mkProcess (now p) [] (fresh_job p) (stats p) (args_config_file p)
             (log p ++ [EvPrintLogo; EvInvalidCron]))
  end.
Proof.
  intros Hrun Hcron.
  assert (E : forall n, main w g n p
                        = (schedule_from_cron w (sch g) ;; polling w g n)
                            (mkProcess (now p) (jobs p) (fresh_job p) (stats p)
                               (args_config_file p) (log p ++ [EvPrintLogo])))
    by (intro n; now apply main_cron_eq).
  destruct (croniter_next w (sch g) (now p)) as [t |] eqn:N.
  - cbv zeta.
    assert (E' : forall n,
              main w g n p
              = polling w g n
                  (mkProcess (now p) [mkJob (fresh_job p) t (t - now p)]
                     (S (fresh_job p)) (stats p) (args_config_file p)
                     (log p ++ [EvPrintLogo]))).
    { intro n. rewrite E. unfold bind. rewrite schedule_from_cron_eq.
      cbn [now]. rewrite N.
      cbn [now jobs fresh_job stats args_config_file log].
      now replace (now p + (t - now p)) with t by lia. }
    split; [apply E' |]. split; [apply E' |].
    intros Ht Hs. rewrite E'. rewrite polling_step.
    unfold kill_now. rewrite Hs. unfold bind.
    destruct (turn_waits_a_minute w g
                (mkProcess (now p) [mkJob (fresh_job p) t (t - now p)]
                   (S (fresh_job p)) (stats p) (args_config_file p)
                   (log p ++ [EvPrintLogo]))) as (T & _).
    rewrite T.
    + cbn [polling ret final log]. unfold ret. cbn [final log].
      rewrite <- app_assoc, runs_begun_app. cbn [runs_begun app].
      apply app_nil_r.
    + cbn [jobs now]. intros j [<- | []]. exact Ht.
  - rewrite E. unfold bind. rewrite schedule_from_cron_eq. cbn [now].
    rewrite N. cbn [log]. now rewrite <- app_assoc.
Qed.

Lemma cron_schedule_witness :
  runs_begun
    (log (final (main Sample.world Sample.every_5_minutes_cron 0 (boot 5)))) = [].
Proof.
  pose proof (cron_schedule_runs_nothing_at_startup Sample.world
                Sample.every_5_minutes_cron 0 (boot 5) eq_refl eq_refl) as H.
  assert (N : croniter_next Sample.world (sch Sample.every_5_minutes_cron)
                (now (boot 5)) = Some 300000000) by (vm_compute; reflexivity).
  rewrite N in H. cbv zeta in H. destruct H as (H & _).
  rewrite H. reflexivity.
Defined.
